(** * app.py of the movie recommender: favorites store, catalog client and
      search session, embedded as functions over Python values.

    The program is a Streamlit script.  Its state lives in three places:
    the file [favorites.json], the remote catalog reached through
    [requests.get], and [st.session_state].  Every function of the script
    that the properties below talk about is written here as a computation
    in a state-and-exception monad over that state, statement by statement
    and in the evaluation order of the Python source. *)

From Stdlib Require Import ZArith NArith List Bool String Ascii Lia.
From Stdlib Require Import PrimFloat SpecFloat FloatOps DecimalString.
From stdpp Require Import gmap list.

Local Open Scope Z_scope.

(** ** Python strings

    A [str] is a sequence of Unicode code points; [len], slicing and
    [str.isdigit] all work per code point, so a string is a list of code
    point numbers and not a list of bytes. *)

Abbreviation char := N (only parsing).
Abbreviation pystr := (list N) (only parsing).

(** An ASCII literal of the source, as a Python string. *)
Definition lit (s : string) : pystr :=
  List.map N_of_ascii (list_ascii_of_string s).
Arguments lit s%_string.

(** ** Python values

    The values the script handles are those [json.load] and
    [Response.json] produce, plus what it builds from them: [None],
    [bool], [int] (unbounded), [float] (IEEE binary64), [str], [list] and
    [dict] with string keys.  A [dict] keeps its insertion order, so it is
    an association list; lookups take the first binding of a key. *)

#[warnings="-register-all"]
Inductive pyval : Type :=
| PyNone
| PyBool (b : bool)
| PyInt (z : Z)
| PyFloat (f : float)
| PyStr (s : pystr)
| PyList (l : list pyval)
| PyDict (kv : list (pystr * pyval)).

Fixpoint assoc {A : Type} (k : pystr) (d : list (pystr * A)) : option A :=
  match d with
  | [] => None
  | (k', v) :: d' => if decide (k = k') then Some v else assoc k d'
  end.

(** [d[k] = v] on a dict: the binding is replaced in place when the key
    exists and appended otherwise. *)
Fixpoint dict_set {A : Type} (k : pystr) (v : A) (d : list (pystr * A))
  : list (pystr * A) :=
  match d with
  | [] => [(k, v)]
  | (k', v') :: d' =>
      if decide (k = k') then (k', v) :: d' else (k', v') :: dict_set k v d'
  end.

(** *** Equality [==]

    Numbers compare by exact mathematical value across [bool], [int] and
    [float]; a float is [(-1)^s * m * 2^e] or zero, an infinity, or NaN. *)

Definition float_eq_int (f : float) (z : Z) : bool :=
  match Prim2SF f with
  | S754_zero _ => z =? 0
  | S754_finite s m e =>
      let v := if s then Z.neg m else Z.pos m in
      if 0 <=? e then z =? v * 2 ^ e else z * 2 ^ (- e) =? v
  | S754_infinity _ | S754_nan => false
  end.

Definition as_number (v : pyval) : option (Z + float) :=
  match v with
  | PyBool b => Some (inl (Z.b2z b))
  | PyInt z => Some (inl z)
  | PyFloat f => Some (inr f)
  | _ => None
  end.

Definition number_eq (x y : Z + float) : bool :=
  match x, y with
  | inl a, inl b => a =? b
  | inl a, inr f | inr f, inl a => float_eq_int f a
  | inr f, inr g => PrimFloat.eqb f g
  end.

(** Lists compare element by element, dicts binding by binding whatever
    the order.  (CPython first tests two elements for identity before it
    calls [==]; values have no identity here, which only differs on a
    container that holds the very same NaN object twice.) *)
Fixpoint py_eq (a b : pyval) {struct a} : bool :=
  match a, b with
  | PyNone, PyNone => true
  | PyStr s, PyStr t => bool_decide (s = t)
  | PyList l, PyList m =>
      (fix all2 (l m : list pyval) {struct l} : bool :=
         match l, m with
         | [], [] => true
         | x :: l', y :: m' => py_eq x y && all2 l' m'
         | _, _ => false
         end) l m
  | PyDict d, PyDict e =>
      (length d =? length e)%nat &&
      (fix each (d : list (pystr * pyval)) {struct d} : bool :=
         match d with
         | [] => true
         | (k, v) :: d' =>
             match assoc k e with
             | Some v' => py_eq v v'
             | None => false
             end && each d'
         end) d
  | _, _ =>
      match as_number a, as_number b with
      | Some x, Some y => number_eq x y
      | _, _ => false
      end
  end.

(** Truth value of an object, as [if x:], [not x] and [x or y] test it. *)
Definition truthy (v : pyval) : bool :=
  match v with
  | PyNone => false
  | PyBool b => b
  | PyInt z => negb (z =? 0)
  | PyFloat f => negb (PrimFloat.eqb f 0%float)
  | PyStr s => negb (bool_decide (s = []))
  | PyList l => negb (bool_decide (length l = 0%nat))
  | PyDict d => negb (bool_decide (length d = 0%nat))
  end.

(** ** Exceptions *)

Inductive exn : Type :=
| KeyError (k : pystr)
| TypeError
| AttributeError
| ValueError
| JSONDecodeError
| FileNotFoundError
| HTTPError (status : Z)
| ConnectionError.

Inductive result (A : Type) : Type :=
| Ok (a : A)
| Raise (e : exn).
Arguments Ok {A} a.
Arguments Raise {A} e.

Definition rbind {A B : Type} (r : result A) (k : A -> result B) : result B :=
  match r with
  | Ok a => k a
  | Raise e => Raise e
  end.

(** [v[k]] with a string key. *)
Definition getitem (v : pyval) (k : pystr) : result pyval :=
  match v with
  | PyDict d =>
      match assoc k d with
      | Some x => Ok x
      | None => Raise (KeyError k)
      end
  | _ => Raise TypeError
  end.

(** [v.get(k, default)]; only a dict has the method. *)
Definition dict_get (v : pyval) (k : pystr) (default : pyval) : result pyval :=
  match v with
  | PyDict d =>
      match assoc k d with
      | Some x => Ok x
      | None => Ok default
      end
  | _ => Raise AttributeError
  end.

(** [iter(v)], run to the end: the elements of a list, the keys of a
    dict, the one-character strings of a string. *)
Definition py_iter (v : pyval) : result (list pyval) :=
  match v with
  | PyList l => Ok l
  | PyDict d => Ok (List.map (fun kv => PyStr (fst kv)) d)
  | PyStr s => Ok (List.map (fun c => PyStr [c]) s)
  | PyNone | PyBool _ | PyInt _ | PyFloat _ => Raise TypeError
  end.

(** [any(p(x) for x in l)]: stops at the first true element, and at the
    first element on which [p] raises. *)
Fixpoint py_any {A : Type} (p : A -> result bool) (l : list A) : result bool :=
  match l with
  | [] => Ok false
  | x :: l' =>
      match p x with
      | Ok true => Ok true
      | Ok false => py_any p l'
      | Raise e => Raise e
      end
  end.

(** [[x for x in l if p(x)]]. *)
Fixpoint py_filter {A : Type} (p : A -> result bool) (l : list A)
  : result (list A) :=
  match l with
  | [] => Ok []
  | x :: l' =>
      match p x with
      | Ok b =>
          match py_filter p l' with
          | Ok r => Ok (if b then x :: r else r)
          | Raise e => Raise e
          end
      | Raise e => Raise e
      end
  end.

(** ** [str.isdigit] and [int]

    Both read the Unicode character database (version 14, the one of
    CPython 3.11).  [str.isdigit] accepts every character whose numeric
    type is Decimal or Digit; [int] converts only those of type Decimal.
    The decimal digits come in runs of ten consecutive code points (one
    run of fifty for the mathematical digits), valued by their offset. *)

Definition decimal_runs : list (N * N) :=
  [ (0x30, 10); (0x660, 10); (0x6f0, 10); (0x7c0, 10); (0x966, 10);
    (0x9e6, 10); (0xa66, 10); (0xae6, 10); (0xb66, 10); (0xbe6, 10);
    (0xc66, 10); (0xce6, 10); (0xd66, 10); (0xde6, 10); (0xe50, 10);
    (0xed0, 10); (0xf20, 10); (0x1040, 10); (0x1090, 10); (0x17e0, 10);
    (0x1810, 10); (0x1946, 10); (0x19d0, 10); (0x1a80, 10); (0x1a90, 10);
    (0x1b50, 10); (0x1bb0, 10); (0x1c40, 10); (0x1c50, 10); (0xa620, 10);
    (0xa8d0, 10); (0xa900, 10); (0xa9d0, 10); (0xa9f0, 10); (0xaa50, 10);
    (0xabf0, 10); (0xff10, 10); (0x104a0, 10); (0x10d30, 10); (0x11066, 10);
    (0x110f0, 10); (0x11136, 10); (0x111d0, 10); (0x112f0, 10);
    (0x11450, 10); (0x114d0, 10); (0x11650, 10); (0x116c0, 10);
    (0x11730, 10); (0x118e0, 10); (0x11950, 10); (0x11c50, 10);
    (0x11d50, 10); (0x11da0, 10); (0x16a60, 10); (0x16ac0, 10);
    (0x16b50, 10); (0x1d7ce, 50); (0x1e140, 10); (0x1e2f0, 10);
    (0x1e950, 10); (0x1fbf0, 10) ]%N.

(** Characters of numeric type Digit that are not Decimal (superscripts,
    subscripts, circled and parenthesized digits, ...), as closed ranges. *)
Definition digit_only_ranges : list (N * N) :=
  [ (0xb2, 0xb3); (0xb9, 0xb9); (0x1369, 0x1371); (0x19da, 0x19da);
    (0x2070, 0x2070); (0x2074, 0x2079); (0x2080, 0x2089); (0x2460, 0x2468);
    (0x2474, 0x247c); (0x2488, 0x2490); (0x24ea, 0x24ea); (0x24f5, 0x24fd);
    (0x24ff, 0x24ff); (0x2776, 0x277e); (0x2780, 0x2788); (0x278a, 0x2792);
    (0x10a40, 0x10a43); (0x10e60, 0x10e68); (0x11052, 0x1105a);
    (0x1f100, 0x1f10a) ]%N.

(** Whitespace characters ([str.isspace]). *)
Definition space_ranges : list (N * N) :=
  [ (0x9, 0xd); (0x1c, 0x20); (0x85, 0x85); (0xa0, 0xa0); (0x1680, 0x1680);
    (0x2000, 0x200a); (0x2028, 0x2029); (0x202f, 0x202f); (0x205f, 0x205f);
    (0x3000, 0x3000) ]%N.

Definition in_ranges (rs : list (N * N)) (c : char) : bool :=
  existsb (fun r => (fst r <=? c)%N && (c <=? snd r)%N) rs.

(** The decimal value of a character, when it has one. *)
Fixpoint decimal_in (runs : list (N * N)) (c : char) : option Z :=
  match runs with
  | [] => None
  | (start, len) :: runs' =>
      if ((start <=? c) && (c <? start + len))%N
      then Some (Z.of_N ((c - start) mod 10))
      else decimal_in runs' c
  end.

Definition decimal_value (c : char) : option Z := decimal_in decimal_runs c.

Definition is_decimal_char (c : char) : bool :=
  match decimal_value c with Some _ => true | None => false end.

Definition is_digit_char (c : char) : bool :=
  is_decimal_char c || in_ranges digit_only_ranges c.

Definition is_space_char (c : char) : bool := in_ranges space_ranges c.

(** [s.isdigit()]: at least one character, and all of them digits. *)
Definition str_isdigit (s : pystr) : bool :=
  negb (bool_decide (s = [])) && forallb is_digit_char s.

(** [int(s)] first rewrites the string to ASCII: a character below 127
    stays, other whitespace becomes a blank, a decimal digit becomes its
    ASCII digit, and anything else makes the literal invalid. *)
Fixpoint to_ascii_decimal (s : pystr) : option pystr :=
  match s with
  | [] => Some []
  | c :: s' =>
      let keep (a : char) :=
        match to_ascii_decimal s' with
        | Some r => Some (a :: r)
        | None => None
        end in
      if (c <? 127)%N then keep c
      else if is_space_char c then keep 32%N
      else match decimal_value c with
           | Some d => keep (48 + Z.to_N d)%N
           | None => None
           end
  end.

(** The blanks [int] skips around an ASCII literal. *)
Definition is_c_space (c : char) : bool :=
  ((9 <=? c) && (c <=? 13) || (c =? 32))%N.

Fixpoint skip_spaces (s : pystr) : pystr :=
  match s with
  | c :: s' => if is_c_space c then skip_spaces s' else s
  | [] => []
  end.

Definition ascii_digit (c : char) : option Z :=
  if ((48 <=? c) && (c <=? 57))%N then Some (Z.of_N c - 48) else None.

(** The digits of a base-10 literal, single underscores allowed between
    them: the value read so far, the number of digits, whether the last
    character was an underscore, and what follows the literal.  [None]
    when two underscores meet. *)
Fixpoint scan_digits (acc : Z) (n : nat) (after_us : bool) (s : pystr)
  : option (Z * nat * bool * pystr) :=
  match s with
  | [] => Some (acc, n, after_us, [])
  | c :: s' =>
      match ascii_digit c with
      | Some d => scan_digits (10 * acc + d) (S n) false s'
      | None =>
          if (c =? 95)%N
          then if after_us then None else scan_digits acc n true s'
          else Some (acc, n, after_us, s)
      end
  end.

(** An optional sign: whether it is a minus, and what follows it. *)
Definition strip_sign (a : pystr) : bool * pystr :=
  match a with
  | c :: r =>
      if (c =? 43)%N then (false, r)
      else if (c =? 45)%N then (true, r)
      else (false, a)
  | [] => (false, a)
  end.

Definition starts_with_underscore (a : pystr) : bool :=
  match a with
  | c :: _ => (c =? 95)%N
  | [] => false
  end.

(** [int(s)] for a string [s].  [max_str_digits] is the interpreter's
    limit on the digits of a converted literal
    ([sys.get_int_max_str_digits()], 4300 unless configured; 0 turns it
    off); it applies to literals of more than 640 digits. *)
Definition py_int (max_str_digits : nat) (s : pystr) : result Z :=
  match to_ascii_decimal s with
  | None => Raise ValueError
  | Some a =>
      let '(neg, a2) := strip_sign (skip_spaces a) in
      if starts_with_underscore a2 then Raise ValueError
      else
        match scan_digits 0 0 false a2 with
        | None => Raise ValueError
        | Some (v, n, after_us, rest) =>
            if after_us || bool_decide (n = 0%nat)
               || negb (bool_decide (skip_spaces rest = []))
            then Raise ValueError
            else if (640 <? n)%nat
                    && (0 <? max_str_digits)%nat
                    && (max_str_digits <? n)%nat
            then Raise ValueError
            else Ok (if neg then - v else v)
        end
  end.

(** ** The world outside the script

    [favorites.json] is written by [json.dump] and read by [json.load]
    only.  A file is kept as the document it holds: [JsonText v] is the
    text [json.dump] writes for [v], which [json.load] reads back as [v];
    [Malformed] is any text [json.load] rejects (an empty or truncated
    file, for instance). *)

Inductive file : Type :=
| JsonText (v : pyval)
| Malformed (text : pystr).

(** A call [requests.get(url, params=params)]. *)
Record request : Type := Get { url : pystr; params : list (pystr * pyval) }.

(** What comes back: no response at all (the call raises), or a status
    code and a body, which is a JSON document or not. *)
Inductive http_outcome : Type :=
| NoResponse
| Response (status : Z) (body : option pyval).

Inductive event : Type :=
| EvRead (path : pystr)
| EvWrite (path : pystr) (v : pyval)
| EvGet (r : request).

(** The files, the remote catalog (whose answer may depend on everything
    that happened before), the journal of file and network operations,
    and the two settings read from the environment: [TMDB_API_KEY]
    ([None] when unset) and the interpreter's integer digit limit. *)
Record world : Type := World {
  files : gmap (list N) file;
  remote : list event -> request -> http_outcome;
  trace : list event;
  API_KEY : pyval;
  int_max_str_digits : nat }.

Definition log (ev : event) (w : world) : world :=
  {| files := files w; remote := remote w; trace := trace w ++ [ev];
     API_KEY := API_KEY w; int_max_str_digits := int_max_str_digits w |}.

Definition set_file (path : pystr) (f : file) (w : world) : world :=
  {| files := <[path := f]> (files w); remote := remote w; trace := trace w;
     API_KEY := API_KEY w; int_max_str_digits := int_max_str_digits w |}.

(** ** Computations: state and exceptions

    A statement sequence runs from a state to a result and a state; the
    state it reached is kept when it raises. *)

Definition M (S A : Type) : Type := S -> result A * S.

Definition ret {S A : Type} (a : A) : M S A := fun s => (Ok a, s).

Definition raise {S A : Type} (e : exn) : M S A := fun s => (Raise e, s).

Definition bind {S A B : Type} (m : M S A) (k : A -> M S B) : M S B :=
  fun s =>
    match m s with
    | (Ok a, s') => k a s'
    | (Raise e, s') => (Raise e, s')
    end.

Definition lift {S A : Type} (r : result A) : M S A := fun s => (r, s).

Definition gets {S A : Type} (f : S -> A) : M S A := fun s => (Ok (f s), s).

Definition modify {S : Type} (f : S -> S) : M S unit := fun s => (Ok tt, f s).

Notation "'do' x <- m ; k" := (bind m (fun x => k))
  (at level 10, x name, m at level 100, k at level 200, only parsing).

(** ** Constants of the script *)

Definition BASE_URL : pystr := lit "https://api.themoviedb.org/3".
Definition FAVORITES_FILE : pystr := lit "favorites.json".

(** ** The catalog client *)

(** [requests.get(url, params=params)]: one request goes out. *)
Definition requests_get (u : pystr) (ps : list (pystr * pyval))
  : M world (Z * option pyval) :=
  fun w =>
    let r := Get u ps in
    match remote w (trace w) r with
    | NoResponse => (Raise ConnectionError, log (EvGet r) w)
    | Response st body => (Ok (st, body), log (EvGet r) w)
    end.

(** [res.raise_for_status()]: raises on a 4xx or 5xx status. *)
Definition raise_for_status {S : Type} (res : Z * option pyval) : M S unit :=
  if (400 <=? fst res) && (fst res <? 600)
  then raise (HTTPError (fst res))
  else ret tt.

(** [res.json()]. *)
Definition response_json {S : Type} (res : Z * option pyval) : M S pyval :=
  match snd res with
  | Some v => ret v
  | None => raise JSONDecodeError
  end.

(** The request parameters of [discover_movies], lines 29-38. *)
Definition discover_params (api_key genre_id min_rating year page : pyval)
  : list (pystr * pyval) :=
  let params :=
    [ (lit "api_key", api_key);
      (lit "language", PyStr (lit "ja"));
      (lit "with_genres", genre_id);
      (lit "vote_average.gte", min_rating);
      (lit "sort_by", PyStr (lit "popularity.desc"));
      (lit "page", page) ] in
  if truthy year
  then dict_set (lit "primary_release_year") year params
  else params.

(** [discover_movies(genre_id, min_rating, year, page)].  (Every call in
    the script passes all four arguments.) *)
Definition discover_movies (genre_id min_rating year page : pyval)
  : M world pyval :=
  do api_key <- gets API_KEY;
  let params := discover_params api_key genre_id min_rating year page in
  let url := BASE_URL ++ lit "/discover/movie" in
  do res <- requests_get url params;
  do _ <- raise_for_status res;
  do body <- response_json res;
  lift (getitem body (lit "results")).

(** ** The favorites store *)

(** [os.path.exists(path)]. *)
Definition path_exists (path : pystr) : M world bool :=
  gets (fun w => bool_decide (is_Some (files w !! path))).

(** [with open(path, "r", encoding="utf-8") as f: json.load(f)]. *)
Definition read_json (path : pystr) : M world pyval :=
  fun w =>
    match files w !! path with
    | Some (JsonText v) => (Ok v, log (EvRead path) w)
    | Some (Malformed _) => (Raise JSONDecodeError, log (EvRead path) w)
    | None => (Raise FileNotFoundError, w)
    end.

(** [with open(path, "w", encoding="utf-8") as f:
     json.dump(v, f, ensure_ascii=False, indent=2)]: the file is created
    or replaced as a whole. *)
Definition write_json (path : pystr) (v : pyval) : M world unit :=
  modify (fun w => log (EvWrite path v) (set_file path (JsonText v) w)).

Definition load_favorites : M world pyval :=
  do present <- path_exists FAVORITES_FILE;
  if present then read_json FAVORITES_FILE else ret (PyList []).

Definition save_favorites (favorites : pyval) : M world unit :=
  write_json FAVORITES_FILE favorites.

(** The record line 77 builds from a movie. *)
Definition favorite_record (movie : pyval) : result pyval :=
  rbind (getitem movie (lit "id")) (fun id =>
  rbind (dict_get movie (lit "title") PyNone) (fun title =>
  rbind (dict_get movie (lit "poster_path") PyNone) (fun poster_path =>
  rbind (dict_get movie (lit "vote_average") PyNone) (fun vote_average =>
  rbind (dict_get movie (lit "release_date") (PyStr [])) (fun release_date =>
  Ok (PyDict [ (lit "id", id);
               (lit "title", title);
               (lit "poster_path", poster_path);
               (lit "vote_average", vote_average);
               (lit "release_date", release_date) ])))))).

(** [f["id"] == movie["id"]], left operand first. *)
Definition same_id_as_movie (movie f : pyval) : result bool :=
  rbind (getitem f (lit "id")) (fun fid =>
  rbind (getitem movie (lit "id")) (fun mid =>
  Ok (py_eq fid mid))).

(** [f["id"] == movie_id] and [f["id"] != movie_id]. *)
Definition has_id (movie_id f : pyval) : result bool :=
  rbind (getitem f (lit "id")) (fun fid => Ok (py_eq fid movie_id)).

Definition has_other_id (movie_id f : pyval) : result bool :=
  rbind (getitem f (lit "id")) (fun fid => Ok (negb (py_eq fid movie_id))).

(** [favorites.append(x)]: a list method, looked up before [x] is
    evaluated. *)
Definition add_favorite (movie : pyval) : M world unit :=
  do favorites <- load_favorites;
  do items <- lift (py_iter favorites);
  do found <- lift (py_any (same_id_as_movie movie) items);
  if negb found then
    match favorites with
    | PyList l =>
        do record <- lift (favorite_record movie);
        save_favorites (PyList (l ++ [record]))
    | _ => raise AttributeError
    end
  else ret tt.

Definition remove_favorite (movie_id : pyval) : M world unit :=
  do favorites <- load_favorites;
  do items <- lift (py_iter favorites);
  do kept <- lift (py_filter (has_other_id movie_id) items);
  save_favorites (PyList kept).

Definition is_favorite (movie_id : pyval) : M world bool :=
  do favorites <- load_favorites;
  do items <- lift (py_iter favorites);
  lift (py_any (has_id movie_id) items).

(** ** The movie card (lines 104 and 112) *)

(** The placeholder of line 104, "あらすじなし". *)
Definition NO_OVERVIEW : pystr :=
  [0x3042; 0x3089; 0x3059; 0x3058; 0x306a; 0x3057]%N.

(** [overview = movie.get("overview") or NO_OVERVIEW]. *)
Definition card_overview (movie : pyval) : result pyval :=
  rbind (dict_get movie (lit "overview") PyNone) (fun v =>
  Ok (if truthy v then v else PyStr NO_OVERVIEW)).

(** The text line 112 writes for a string [overview]:
    [overview[:120] + "..." if len(overview) > 120 else overview]. *)
Definition synopsis (overview : pystr) : pystr :=
  if bool_decide (120 < length overview)%nat
  then take 120 overview ++ lit "..."
  else overview.

(** ** The search session (lines 163-199) *)

(** [year_value = int(year) if year.isdigit() else None], line 173. *)
Definition year_value (max_str_digits : nat) (year : pystr) : result pyval :=
  if str_isdigit year
  then rbind (py_int max_str_digits year) (fun z => Ok (PyInt z))
  else Ok PyNone.

(** [st.session_state]: [page] and [movies] always exist (lines 164-167
    create them), the three filter attributes exist once a search has
    set them. *)
Record session_state : Type := Session {
  ss_page : Z;
  ss_movies : pyval;
  ss_genre_id : option pyval;
  ss_min_rating : option pyval;
  ss_year_value : option pyval }.

Definition initial_session : session_state :=
  Session 1 (PyList []) None None None.

Record app_state : Type := AppState { app_world : world; app_session : session_state }.

Definition in_world {A : Type} (m : M world A) : M app_state A :=
  fun a =>
    let (r, w') := m (app_world a) in (r, AppState w' (app_session a)).

Definition session {A : Type} (f : session_state -> A) : M app_state A :=
  gets (fun a => f (app_session a)).

(** Reading an attribute that was never set raises. *)
Definition attribute (f : session_state -> option pyval) : M app_state pyval :=
  do o <- session f;
  match o with
  | Some v => ret v
  | None => raise AttributeError
  end.

Definition update (f : session_state -> session_state) : M app_state unit :=
  modify (fun a => AppState (app_world a) (f (app_session a))).

Definition set_page (p : Z) (s : session_state) : session_state :=
  Session p (ss_movies s) (ss_genre_id s) (ss_min_rating s) (ss_year_value s).
Definition set_movies (m : pyval) (s : session_state) : session_state :=
  Session (ss_page s) m (ss_genre_id s) (ss_min_rating s) (ss_year_value s).
Definition set_genre_id (v : pyval) (s : session_state) : session_state :=
  Session (ss_page s) (ss_movies s) (Some v) (ss_min_rating s) (ss_year_value s).
Definition set_min_rating (v : pyval) (s : session_state) : session_state :=
  Session (ss_page s) (ss_movies s) (ss_genre_id s) (Some v) (ss_year_value s).
Definition set_year_value (v : pyval) (s : session_state) : session_state :=
  Session (ss_page s) (ss_movies s) (ss_genre_id s) (ss_min_rating s) (Some v).

(** The body of [if search_button:], lines 171-178.  [genre_map] is the
    dict of line 156, [selected_genre_name], [min_rating] and [year] are
    the values of the three sidebar controls. *)
Definition search_handler (genre_map : pyval) (selected_genre_name : pystr)
    (min_rating : pyval) (year : pystr) : M app_state unit :=
  do _ <- update (set_page 1);
  do genre_id <- lift (getitem genre_map selected_genre_name);
  do limit <- in_world (gets int_max_str_digits);
  do yv <- lift (year_value limit year);
  do found <- in_world (discover_movies genre_id min_rating yv (PyInt 1));
  do _ <- update (set_movies found);
  do _ <- update (set_genre_id genre_id);
  do _ <- update (set_min_rating min_rating);
  update (set_year_value yv).

(** [movies += more_movies] on the accumulated list: [list.__iadd__]
    extends the list by whatever iterating the right operand gives.  The
    button of line 189 is only reached after the loop of lines 184-186
    has rendered a card for every element of [movies], which raises on
    anything but a list; the other left operands are not told apart. *)
Definition list_iadd (movies more : pyval) : result pyval :=
  match movies with
  | PyList l => rbind (py_iter more) (fun xs => Ok (PyList (l ++ xs)))
  | _ => Raise TypeError
  end.

(** The body of [if st.button("▼ もっと見る"):], lines 190-199. *)
Definition load_more_handler : M app_state unit :=
  do p <- session ss_page;
  do _ <- update (set_page (p + 1));
  do genre_id <- attribute ss_genre_id;
  do min_rating <- attribute ss_min_rating;
  do yv <- attribute ss_year_value;
  do p' <- session ss_page;
  do more_movies <- in_world (discover_movies genre_id min_rating yv (PyInt p'));
  do movies <- session ss_movies;
  do extended <- lift (list_iadd movies more_movies);
  update (set_movies extended).

(** ** Vocabulary of the properties *)

(** What the favorites file holds, if it exists. *)
Definition on_disk (w : world) : option file := files w !! FAVORITES_FILE.

(** The favorites array as the store sees it: the empty array when there
    is no file, nothing when the file does not hold an array. *)
Definition stored (w : world) : option (list pyval) :=
  match on_disk w with
  | None => Some []
  | Some (JsonText (PyList l)) => Some l
  | Some _ => None
  end.

(** The record [f] carries the id [movie_id]. *)
Definition id_is (movie_id f : pyval) : bool :=
  match getitem f (lit "id") with
  | Ok fid => py_eq fid movie_id
  | Raise _ => false
  end.

(** The record [f] carries an id, and it differs from [movie_id]. *)
Definition id_differs (movie_id f : pyval) : bool :=
  match getitem f (lit "id") with
  | Ok fid => negb (py_eq fid movie_id)
  | Raise _ => false
  end.

Definition has_an_id (f : pyval) : Prop :=
  exists fid, getitem f (lit "id") = Ok fid.

(** At most one record per id: every record has an id, and that id
    equals ([==]) the id of no later record. *)
Definition later_id_differs (fid g : pyval) : bool :=
  match getitem g (lit "id") with
  | Ok gid => negb (py_eq fid gid)
  | Raise _ => false
  end.

Fixpoint distinct_ids (favs : list pyval) : bool :=
  match favs with
  | [] => true
  | f :: rest =>
      match getitem f (lit "id") with
      | Ok fid => forallb (later_id_differs fid) rest && distinct_ids rest
      | Raise _ => false
      end
  end.

(** The fields of a favorite record. *)
Definition record_fields : list (list N) :=
  [ lit "id"; lit "title"; lit "poster_path"; lit "vote_average";
    lit "release_date" ].

(** The state a computation ends in, and its result. *)
Definition exec {S A : Type} (m : M S A) (s : S) : S := snd (m s).
Definition outcome {S A : Type} (m : M S A) (s : S) : result A := fst (m s).

(** The world [load_favorites] leaves behind: the file is read when it
    exists. *)
Definition after_load (w : world) : world :=
  match on_disk w with
  | None => w
  | Some _ => log (EvRead FAVORITES_FILE) w
  end.

(** The world [save_favorites v] leaves behind. *)
Definition rewritten (v : pyval) (w : world) : world :=
  log (EvWrite FAVORITES_FILE v) (set_file FAVORITES_FILE (JsonText v) w).

(** A movie summary as the catalog returns it, the record made of it,
    and a world whose favorites file holds the given records. *)
Definition fight_club : pyval :=
  PyDict [ (lit "id", PyInt 550);
           (lit "title", PyStr (lit "Fight Club"));
           (lit "release_date", PyStr (lit "1999-10-15"));
           (lit "vote_average", PyFloat 8.5);
           (lit "overview", PyStr (lit "An insomniac office worker."));
           (lit "poster_path", PyStr (lit "/fc.jpg")) ].

Definition fight_club_record : pyval :=
  PyDict [ (lit "id", PyInt 550);
           (lit "title", PyStr (lit "Fight Club"));
           (lit "poster_path", PyStr (lit "/fc.jpg"));
           (lit "vote_average", PyFloat 8.5);
           (lit "release_date", PyStr (lit "1999-10-15")) ].

Definition alien_record : pyval :=
  PyDict [ (lit "id", PyInt 348);
           (lit "title", PyStr (lit "Alien"));
           (lit "poster_path", PyNone);
           (lit "vote_average", PyFloat 8);
           (lit "release_date", PyStr (lit "1979-05-25")) ].

(** What [int] makes of a string of ASCII digits. *)
Definition digits_value (s : list N) : Z :=
  fold_left (fun acc c => 10 * acc + (Z.of_N c - 48)) s 0.

Definition is_ascii_digit (c : N) : bool := ((48 <=? c) && (c <=? 57))%N.

(** A catalog that answers every request with one page holding one
    movie. *)
Definition one_page_remote : list event -> request -> http_outcome :=
  fun _ _ =>
    Response 200
      (Some (PyDict [ (lit "page", PyInt 1);
                      (lit "results", PyList [fight_club]);
                      (lit "total_pages", PyInt 1) ])).

Definition online_world : world :=
  World ∅ one_page_remote [] (PyStr (lit "k")) 4300.

(** A session on the first page of a search for genre 28, rated 8 and
    more, released in 2023, with one movie shown. *)
Definition searched_session : session_state :=
  Session 1 (PyList [fight_club]) (Some (PyInt 28)) (Some (PyFloat 8))
          (Some (PyInt 2023)).

(** A catalog that never answers, and an empty disk, for examples. *)
Definition no_remote : list event -> request -> http_outcome :=
  fun _ _ => NoResponse.

Definition empty_world : world :=
  World ∅ no_remote [] (PyStr (lit "k")) 4300.

Definition world_with (favs : list pyval) : world :=
  World {[ FAVORITES_FILE := JsonText (PyList favs) ]} no_remote []
        (PyStr (lit "k")) 4300.

(** ** The rest of the script *)

(** *** The other catalog calls (lines 19-24 and 46-52) *)

Definition get_genres : M world pyval :=
  let url := BASE_URL ++ lit "/genre/movie/list" in
  do api_key <- gets API_KEY;
  do res <- requests_get url [ (lit "api_key", api_key);
                               (lit "language", PyStr (lit "ja")) ];
  do _ <- raise_for_status res;
  do body <- response_json res;
  lift (getitem body (lit "genres")).

(** [v[:n]]: a list and a string are cut, nothing else can be sliced (a
    dict raises too: its slice key is unhashable; from CPython 3.12 on
    that is a [KeyError]). *)
Definition py_slice_to (n : nat) (v : pyval) : result pyval :=
  match v with
  | PyList l => Ok (PyList (take n l))
  | PyStr s => Ok (PyStr (take n s))
  | PyNone | PyBool _ | PyInt _ | PyFloat _ | PyDict _ => Raise TypeError
  end.

(** [get_cast(movie_id)].  The URL holds the text of [movie_id] as an
    f-string writes it; [format_value] is that formatting, Python's own. *)
Definition get_cast (format_value : pyval -> list N) (movie_id : pyval)
  : M world pyval :=
  let url := BASE_URL ++ lit "/movie/" ++ format_value movie_id
             ++ lit "/credits" in
  do api_key <- gets API_KEY;
  do res <- requests_get url [ (lit "api_key", api_key);
                               (lit "language", PyStr (lit "ja")) ];
  do _ <- raise_for_status res;
  do body <- response_json res;
  do cast <- lift (dict_get body (lit "cast") (PyList []));
  lift (py_slice_to 5 cast).

(** The text of an integer id, for the examples. *)
Definition decimal_text (v : pyval) : list N :=
  match v with
  | PyInt z => lit (NilZero.string_of_int (Z.to_int z))
  | _ => []
  end.

(** *** The fields of a card (lines 100-112) and of a favorites row
        (lines 212-218) *)

Definition POSTER_BASE_URL : list N := lit "https://image.tmdb.org/t/p/w300".

(** "タイトル不明" and "不明". *)
Definition TITLE_UNKNOWN : list N :=
  [0x30bf; 0x30a4; 0x30c8; 0x30eb; 0x4e0d; 0x660e]%N.
Definition UNKNOWN : list N := [0x4e0d; 0x660e]%N.

(** [a or b]. *)
Definition py_or (a b : pyval) : pyval := if truthy a then a else b.

(** [year_str = movie.get("release_date", "")[:4] or "不明"], lines 102
    and 215. *)
Definition year_str (movie : pyval) : result pyval :=
  rbind (dict_get movie (lit "release_date") (PyStr [])) (fun d =>
  rbind (py_slice_to 4 d) (fun y =>
  Ok (py_or y (PyStr UNKNOWN)))).

(** [POSTER_BASE_URL + poster_path] when [poster_path] is true: the URL
    of the image shown, or no image. *)
Definition poster_url (poster_path : pyval) : result (option (list N)) :=
  if truthy poster_path then
    match poster_path with
    | PyStr s => Ok (Some (POSTER_BASE_URL ++ s))
    | _ => Raise TypeError
    end
  else Ok None.

(** What lines 100-108 of [show_movie_card] compute and show. *)
Record card : Type := Card {
  cd_movie_id : pyval;
  cd_title : pyval;
  cd_year_str : pyval;
  cd_rating : pyval;
  cd_overview : pyval;
  cd_poster : option (list N) }.

Definition card_header (movie : pyval) : result card :=
  rbind (getitem movie (lit "id")) (fun movie_id =>
  rbind (dict_get movie (lit "title") (PyStr TITLE_UNKNOWN)) (fun title =>
  rbind (year_str movie) (fun year =>
  rbind (dict_get movie (lit "vote_average") (PyStr (lit "N/A"))) (fun rating =>
  rbind (card_overview movie) (fun overview =>
  rbind (dict_get movie (lit "poster_path") PyNone) (fun poster_path =>
  rbind (poster_url poster_path) (fun poster =>
  Ok (Card movie_id title year rating overview poster)))))))).

(** Line 112 on any value of [overview]: [len] wants a string, a list or
    a dict; beyond 120 elements a list cannot be followed by ["..."] and
    a dict cannot be sliced. *)
Definition card_synopsis (overview : pyval) : result pyval :=
  match overview with
  | PyStr s => Ok (PyStr (synopsis s))
  | PyList l =>
      if bool_decide (120 < length l)%nat then Raise TypeError else Ok overview
  | PyDict d =>
      if bool_decide (120 < length d)%nat then Raise TypeError else Ok overview
  | PyNone | PyBool _ | PyInt _ | PyFloat _ => Raise TypeError
  end.


(** What lines 212-218 read from a stored record to show its row. *)
Record row : Type := Row {
  row_poster : option (list N);
  row_year_str : pyval;
  row_title : pyval;
  row_vote : pyval;
  row_id : pyval }.

Definition favorite_row (movie : pyval) : result row :=
  rbind (dict_get movie (lit "poster_path") PyNone) (fun poster_path =>
  rbind (poster_url poster_path) (fun poster =>
  rbind (year_str movie) (fun year =>
  rbind (getitem movie (lit "title")) (fun title =>
  rbind (dict_get movie (lit "vote_average") (PyStr (lit "N/A"))) (fun vote =>
  rbind (getitem movie (lit "id")) (fun id =>
  Ok (Row poster year title vote id))))))).

(** The two columns of lines 183-186 and 209-211: card [i] goes to
    column [i % 2]. *)
Fixpoint place_in_columns {A : Type} (i : nat) (cards : list A)
    (cols : list A * list A) : list A * list A :=
  match cards with
  | [] => cols
  | c :: rest =>
      place_in_columns (S i) rest
        (if (i mod 2 =? 0)%nat
         then (fst cols ++ [c], snd cols)
         else (fst cols, snd cols ++ [c]))
  end.

Definition two_columns {A : Type} (cards : list A) : list A * list A :=
  place_in_columns 0 cards ([], []).

(** Pressing "load more" [k] times in a row. *)
Fixpoint press_load_more (k : nat) : M app_state unit :=
  match k with
  | O => ret tt
  | S k' => do _ <- load_more_handler; press_load_more k'
  end.

(** The requests for the pages [p + 1], ..., [p + k] of one search. *)
Fixpoint page_requests (api_key genre_id min_rating yv : pyval) (p : Z)
    (k : nat) : list event :=
  match k with
  | O => []
  | S k' =>
      EvGet (Get (BASE_URL ++ lit "/discover/movie")
                 (discover_params api_key genre_id min_rating yv (PyInt (p + 1))))
      :: page_requests api_key genre_id min_rating yv (p + 1) k'
  end.

(** The world [w'] differs from [w] at most in the favorites file and in
    journal entries that are no requests. *)
Definition confined_to_favorites (w w' : world) : Prop :=
  (forall path, path <> FAVORITES_FILE -> files w' !! path = files w !! path) /\
  remote w' = remote w /\
  API_KEY w' = API_KEY w /\
  exists evs, trace w' = trace w ++ evs /\
              Forall (fun ev => forall r, ev <> EvGet r) evs.

(** A movie that has an id and nothing else. *)
Definition bare_movie : pyval := PyDict [ (lit "id", PyInt 7) ].

(** A catalog that answers every request with the credits of a movie
    that has seven cast members. *)
Definition seven_actors : list pyval :=
  List.map (fun c => PyDict [ (lit "name", PyStr [c]);
                              (lit "character", PyStr [c; c]) ])
           [65; 66; 67; 68; 69; 70; 71]%N.

Definition credits_remote : list event -> request -> http_outcome :=
  fun _ _ =>
    Response 200 (Some (PyDict [ (lit "id", PyInt 550);
                                 (lit "cast", PyList seven_actors) ])).

Definition credits_world : world :=
  World ∅ credits_remote [] (PyStr (lit "k")) 4300.

(** A status on which [raise_for_status] does not raise. *)
Definition ok_status (st : Z) : Prop := ~ (400 <= st < 600).

(** Every second element of a list, from the first one or from the
    second one. *)
Fixpoint alternate {A : Type} (from_first : bool) (l : list A) : list A :=
  match l with
  | [] => []
  | x :: l' =>
      if from_first then x :: alternate false l' else alternate true l'
  end.

(** * Properties *)

Arguments lit : simpl never.
#[local] Opaque FAVORITES_FILE BASE_URL.

Ltac run :=
  unfold load_favorites, save_favorites, write_json, read_json, path_exists,
    bind, ret, raise, lift, gets, modify, exec, outcome in *;
  cbn [fst snd] in *.

Lemma files_log ev w : files (log ev w) = files w.
Proof. reflexivity. Qed.

Lemma on_disk_log ev w : on_disk (log ev w) = on_disk w.
Proof. reflexivity. Qed.

Lemma stored_log ev w : stored (log ev w) = stored w.
Proof. reflexivity. Qed.

Lemma on_disk_set_file v w :
  on_disk (set_file FAVORITES_FILE (JsonText v) w) = Some (JsonText v).
Proof. unfold on_disk, set_file. cbn [files]. apply lookup_insert_eq. Qed.

(** [load_favorites], case by case on the file. *)
Lemma load_favorites_run (w : world) :
  load_favorites w =
  match on_disk w with
  | None => (Ok (PyList []), w)
  | Some (JsonText v) => (Ok v, log (EvRead FAVORITES_FILE) w)
  | Some (Malformed _) => (Raise JSONDecodeError, log (EvRead FAVORITES_FILE) w)
  end.
Proof.
  unfold on_disk. run.
  destruct (files w !! FAVORITES_FILE) as [[v|t]|] eqn:E.
  - rewrite bool_decide_eq_true_2 by eauto. rewrite E. reflexivity.
  - rewrite bool_decide_eq_true_2 by eauto. rewrite E. reflexivity.
  - rewrite bool_decide_eq_false_2 by (intros [x Hx]; discriminate).
    reflexivity.
Qed.


(** C6. [load_favorites] returns the empty list when the file does not
    exist (and touches nothing), returns the stored document when the file
    holds valid JSON, and raises the JSON decode error when the file
    exists but is not valid JSON. *)
Theorem load_favorites_at_storage_boundary (w : world) :
  (on_disk w = None -> load_favorites w = (Ok (PyList []), w)) /\
  (forall v, on_disk w = Some (JsonText v) ->
     outcome load_favorites w = Ok v /\
     files (exec load_favorites w) = files w) /\
  (forall text, on_disk w = Some (Malformed text) ->
     outcome load_favorites w = Raise JSONDecodeError /\
     files (exec load_favorites w) = files w).
Proof.
  unfold outcome, exec. rewrite load_favorites_run.
  repeat split; intros; rewrite H; reflexivity.
Qed.

Lemma load_favorites_at_storage_boundary_witness :
  load_favorites empty_world = (Ok (PyList []), empty_world) /\
  outcome load_favorites (world_with [alien_record])
  = Ok (PyList [alien_record]).
Proof.
  split.
  - exact (proj1 (load_favorites_at_storage_boundary empty_world) eq_refl).
  - exact (proj1 (proj1 (proj2 (load_favorites_at_storage_boundary
                                  (world_with [alien_record])))
                    (PyList [alien_record]) eq_refl)).
Defined.


(** *** Dictionaries and the [any] / filter loops *)

Lemma assoc_head {A : Type} (k : list N) (v : A) d :
  assoc k ((k, v) :: d) = Some v.
Proof. cbn [assoc]. by rewrite decide_True. Qed.

Lemma assoc_skip {A : Type} (k k' : list N) (v : A) d :
  k ≠ k' -> assoc k ((k', v) :: d) = assoc k d.
Proof. intros Hne. cbn [assoc]. by rewrite decide_False. Qed.

(** Two different literals are different keys. *)
Ltac literal_ne :=
  let H := fresh in intros H; vm_compute in H; discriminate H.

Ltac lookup_field :=
  repeat first
    [ rewrite assoc_head
    | rewrite assoc_skip by literal_ne ].

Lemma getitem_is_dict v k x :
  getitem v k = Ok x -> exists d, v = PyDict d /\ assoc k d = Some x.
Proof.
  destruct v; try discriminate. cbn [getitem].
  destruct (assoc k kv) eqn:E; [|discriminate].
  intros [= ->]. eauto.
Qed.

Lemma getitem_dict_get v k x default :
  getitem v k = Ok x -> dict_get v k default = Ok x.
Proof.
  intros (d & -> & E)%getitem_is_dict. cbn [dict_get]. by rewrite E.
Qed.

Lemma py_any_app {A : Type} (p : A -> result bool) l x :
  py_any p (l ++ [x]) =
  match py_any p l with
  | Ok false => match p x with Ok b => Ok b | Raise e => Raise e end
  | r => r
  end.
Proof.
  induction l as [|y l IH]; cbn [py_any app].
  - destruct (p x) as [[]|]; reflexivity.
  - destruct (p y) as [[]|]; [reflexivity|exact IH|reflexivity].
Qed.

Lemma py_any_false {A : Type} (p : A -> result bool) l :
  py_any p l = Ok false -> Forall (fun x => p x = Ok false) l.
Proof.
  induction l as [|y l IH]; cbn [py_any]; [constructor|].
  destruct (p y) as [[]|] eqn:E; try discriminate.
  intros H. constructor; auto.
Qed.

(** Once some element satisfies [p], [any] cannot answer [False]. *)
Lemma py_any_found {A : Type} (p : A -> result bool) l :
  Exists (fun x => p x = Ok true) l -> py_any p l <> Ok false.
Proof.
  intros Hex Hf. apply py_any_false in Hf.
  rewrite Exists_exists in Hex. destruct Hex as (x & Hin & Hx).
  rewrite Forall_forall in Hf. specialize (Hf x Hin). congruence.
Qed.

Lemma py_any_total {A : Type} (p : A -> result bool) l :
  Forall (fun x => exists b, p x = Ok b) l -> exists b, py_any p l = Ok b.
Proof.
  induction 1 as [|x l [b Hb] _ [b' IH]]; cbn [py_any]; [eauto|].
  rewrite Hb. destruct b; eauto.
Qed.

Lemma py_filter_has_other_id movie_id favs :
  Forall has_an_id favs ->
  py_filter (has_other_id movie_id) favs
  = Ok (List.filter (id_differs movie_id) favs).
Proof.
  induction 1 as [|f favs [fid Hf] _ IH]; [reflexivity|].
  cbn [py_filter List.filter]. unfold has_other_id at 1, id_differs at 1.
  rewrite Hf. cbn [rbind]. rewrite IH. reflexivity.
Qed.

Lemma py_filter_ok_ids movie_id favs kept :
  py_filter (has_other_id movie_id) favs = Ok kept ->
  Forall has_an_id favs.
Proof.
  revert kept. induction favs as [|f favs IH]; intros kept; [constructor|].
  cbn [py_filter]. unfold has_other_id at 1.
  destruct (getitem f (lit "id")) as [fid|] eqn:Hf; cbn [rbind]; [|discriminate].
  destruct (py_filter (has_other_id movie_id) favs) as [r|] eqn:Hr; [|discriminate].
  intros _. constructor; [by exists fid | by eapply IH].
Qed.


Lemma forallb_filter {A : Type} (p q : A -> bool) l :
  forallb p l = true -> forallb p (List.filter q l) = true.
Proof.
  induction l as [|x l IH]; cbn [forallb List.filter]; [reflexivity|].
  intros [Hx Hl]%andb_true_iff. destruct (q x); cbn [forallb]; auto.
  rewrite Hx. auto.
Qed.

(** *** The uniqueness invariant under [append] and under filtering *)

Lemma distinct_ids_filter q favs :
  distinct_ids favs = true -> distinct_ids (List.filter q favs) = true.
Proof.
  induction favs as [|f favs IH]; cbn [distinct_ids List.filter]; [reflexivity|].
  destruct (getitem f (lit "id")) as [fid|] eqn:Hf; [|discriminate].
  intros [Hr Hd]%andb_true_iff. destruct (q f); cbn [distinct_ids]; auto.
  rewrite Hf. apply andb_true_iff. split; auto using forallb_filter.
Qed.

Lemma distinct_ids_has_ids favs :
  distinct_ids favs = true -> Forall has_an_id favs.
Proof.
  induction favs as [|f favs IH]; cbn [distinct_ids]; [constructor|].
  destruct (getitem f (lit "id")) as [fid|] eqn:Hf; [|discriminate].
  intros [_ Hd]%andb_true_iff. constructor; [by exists fid | auto].
Qed.

Lemma distinct_ids_snoc movie mid favs record :
  getitem movie (lit "id") = Ok mid ->
  getitem record (lit "id") = Ok mid ->
  py_any (same_id_as_movie movie) favs = Ok false ->
  distinct_ids favs = true ->
  distinct_ids (favs ++ [record]) = true.
Proof.
  intros Hm Hr Hany. apply py_any_false in Hany.
  induction Hany as [|f favs Hf _ IH]; cbn [distinct_ids app].
  - intros _. rewrite Hr. reflexivity.
  - unfold same_id_as_movie in Hf.
    destruct (getitem f (lit "id")) as [fid|] eqn:Ef; [|discriminate].
    cbn [rbind] in Hf. rewrite Hm in Hf. cbn [rbind] in Hf.
    injection Hf as Hf.
    intros [Hall Hd]%andb_true_iff. apply andb_true_iff. split; [|auto].
    rewrite forallb_app, Hall. cbn [forallb]. unfold later_id_differs.
    rewrite Hr, Hf. reflexivity.
Qed.

(** With integer ids, as the catalog assigns them, [distinct_ids] says
    that no id occurs twice. *)
Lemma later_ids_differ_integers z favs zs :
  Forall2 (fun f y => getitem f (lit "id") = Ok (PyInt y)) favs zs ->
  forallb (later_id_differs (PyInt z)) favs = true <-> z ∉ zs.
Proof.
  induction 1 as [|f y favs zs Hf _ IH]; cbn [forallb].
  - split; [intros _; apply not_elem_of_nil | reflexivity].
  - unfold later_id_differs at 1. rewrite Hf.
    change (py_eq (PyInt z) (PyInt y)) with (z =? y).
    rewrite andb_true_iff, IH, not_elem_of_cons, negb_true_iff, Z.eqb_neq.
    reflexivity.
Qed.

Lemma distinct_ids_integers favs zs :
  Forall2 (fun f y => getitem f (lit "id") = Ok (PyInt y)) favs zs ->
  distinct_ids favs = true <-> NoDup zs.
Proof.
  induction 1 as [|f y favs zs Hf Hrest IH]; cbn [distinct_ids].
  - split; [intros _; constructor | reflexivity].
  - rewrite Hf, andb_true_iff, IH, NoDup_cons.
    by rewrite (later_ids_differ_integers _ _ _ Hrest).
Qed.

(** *** [add_favorite] and [remove_favorite], step by step *)

Lemma stored_files w w' : files w = files w' -> stored w = stored w'.
Proof. unfold stored, on_disk. by intros ->. Qed.

Lemma files_after_load w : files (after_load w) = files w.
Proof. unfold after_load. by destruct (on_disk w). Qed.

Lemma stored_rewritten l w : stored (rewritten (PyList l) w) = Some l.
Proof.
  unfold stored, rewritten. by rewrite on_disk_log, on_disk_set_file.
Qed.

Lemma stored_rewritten_on_disk v w :
  on_disk (rewritten v w) = Some (JsonText v).
Proof. unfold rewritten. by rewrite on_disk_log, on_disk_set_file. Qed.

Lemma add_favorite_on_array movie w favs :
  stored w = Some favs ->
  add_favorite movie w =
  match py_any (same_id_as_movie movie) favs with
  | Raise e => (Raise e, after_load w)
  | Ok true => (Ok tt, after_load w)
  | Ok false =>
      match favorite_record movie with
      | Ok record => (Ok tt, rewritten (PyList (favs ++ [record])) (after_load w))
      | Raise e => (Raise e, after_load w)
      end
  end.
Proof.
  unfold stored, after_load, add_favorite. unfold bind at 1.
  rewrite load_favorites_run.
  destruct (on_disk w) as [[[]|]|]; try discriminate; intros [= <-];
    unfold bind, lift, ret, raise; cbn [py_iter];
    (destruct (py_any _ _) as [[]|]; cbn [negb]; try reflexivity;
     destruct (favorite_record movie); reflexivity).
Qed.

Lemma add_favorite_not_array movie w :
  stored w = None -> files (exec (add_favorite movie) w) = files w.
Proof.
  unfold stored, exec, add_favorite. unfold bind at 1.
  rewrite load_favorites_run.
  destruct (on_disk w) as [[v|t]|]; [| reflexivity | discriminate].
  destruct v; try discriminate; intros _;
    unfold bind, lift, ret, raise; cbn [py_iter];
    try reflexivity;
    (destruct (py_any _ _) as [[]|]; reflexivity).
Qed.

Lemma remove_favorite_on_array movie_id w favs :
  stored w = Some favs ->
  remove_favorite movie_id w =
  match py_filter (has_other_id movie_id) favs with
  | Ok kept => (Ok tt, rewritten (PyList kept) (after_load w))
  | Raise e => (Raise e, after_load w)
  end.
Proof.
  unfold stored, after_load, remove_favorite. unfold bind at 1.
  rewrite load_favorites_run.
  destruct (on_disk w) as [[[]|]|]; try discriminate; intros [= <-];
    unfold bind, lift, ret, raise; cbn [py_iter];
    (destruct (py_filter _ _); reflexivity).
Qed.

(** The record built from a movie that has an id. *)
Lemma favorite_record_ok movie mid :
  getitem movie (lit "id") = Ok mid ->
  exists title poster_path vote_average release_date,
    favorite_record movie
    = Ok (PyDict [ (lit "id", mid); (lit "title", title);
                   (lit "poster_path", poster_path);
                   (lit "vote_average", vote_average);
                   (lit "release_date", release_date) ]) /\
    dict_get movie (lit "title") PyNone = Ok title /\
    dict_get movie (lit "poster_path") PyNone = Ok poster_path /\
    dict_get movie (lit "vote_average") PyNone = Ok vote_average /\
    dict_get movie (lit "release_date") (PyStr []) = Ok release_date.
Proof.
  intros Hid. destruct (getitem_is_dict _ _ _ Hid) as (d & -> & Hd).
  unfold favorite_record. rewrite Hid. cbn [rbind dict_get].
  destruct (assoc (lit "title") d), (assoc (lit "poster_path") d),
    (assoc (lit "vote_average") d), (assoc (lit "release_date") d);
    cbn [rbind]; eauto 10.
Qed.

Lemma favorite_record_id movie mid record :
  getitem movie (lit "id") = Ok mid ->
  favorite_record movie = Ok record ->
  getitem record (lit "id") = Ok mid.
Proof.
  intros Hid Hrec.
  destruct (favorite_record_ok _ _ Hid) as (t & p & v & r & E & _).
  rewrite E in Hrec. injection Hrec as <-.
  cbn [getitem]. by rewrite assoc_head.
Qed.

Lemma py_eq_int_refl i : py_eq (PyInt i) (PyInt i) = true.
Proof. cbn. apply Z.eqb_refl. Qed.

Lemma same_id_as_movie_id_is movie mid f :
  getitem movie (lit "id") = Ok mid ->
  id_is mid f = true -> same_id_as_movie movie f = Ok true.
Proof.
  unfold id_is, same_id_as_movie. intros Hm.
  destruct (getitem f (lit "id")); [|discriminate].
  cbn [rbind]. rewrite Hm. cbn [rbind]. by intros ->.
Qed.

Lemma same_id_as_movie_false movie mid f :
  getitem movie (lit "id") = Ok mid ->
  same_id_as_movie movie f = Ok false -> id_is mid f = false.
Proof.
  unfold id_is, same_id_as_movie. intros Hm.
  destruct (getitem f (lit "id")); [|discriminate].
  cbn [rbind]. rewrite Hm. cbn [rbind]. by intros [= ->].
Qed.

Lemma same_id_as_movie_total movie mid f :
  getitem movie (lit "id") = Ok mid -> has_an_id f ->
  exists b, same_id_as_movie movie f = Ok b.
Proof.
  intros Hm [fid Hf]. unfold same_id_as_movie.
  rewrite Hf. cbn [rbind]. rewrite Hm. cbn [rbind]. eauto.
Qed.

Lemma filter_none {A : Type} (q : A -> bool) l :
  Forall (fun x => q x = false) l -> List.filter q l = [].
Proof.
  induction 1 as [|x l Hx _ IH]; [reflexivity|].
  cbn [List.filter]. by rewrite Hx.
Qed.

(** A second [add_favorite] of the same movie writes nothing. *)
Lemma add_favorite_again movie i w :
  getitem movie (lit "id") = Ok (PyInt i) ->
  files (exec (add_favorite movie) (exec (add_favorite movie) w))
  = files (exec (add_favorite movie) w).
Proof.
  intros Hid. destruct (stored w) as [favs|] eqn:Hs.
  - unfold exec at 2 3. rewrite (add_favorite_on_array _ _ _ Hs).
    assert (Hquiet :
      py_any (same_id_as_movie movie) favs <> Ok false \/
      (exists e, favorite_record movie = Raise e) ->
      files (exec (add_favorite movie) (after_load w)) = files (after_load w)).
    { intros Hwhy.
      assert (Hs' : stored (after_load w) = Some favs)
        by (rewrite <- Hs; apply stored_files, files_after_load).
      unfold exec. rewrite (add_favorite_on_array _ _ _ Hs').
      destruct (py_any _ _) as [[]|]; try apply files_after_load.
      destruct Hwhy as [Hne|[e He]]; [congruence|].
      rewrite He. apply files_after_load. }
    destruct (py_any (same_id_as_movie movie) favs) as [[]|] eqn:Hany;
      cbn [snd]; try (apply Hquiet; left; congruence).
    destruct (favorite_record movie) as [record|e] eqn:Hrec; cbn [snd];
      [|apply Hquiet; right; eauto].
    unfold exec.
    rewrite (add_favorite_on_array _ _ _ (stored_rewritten _ _)).
    rewrite py_any_app, Hany. unfold same_id_as_movie.
    rewrite (favorite_record_id _ _ _ Hid Hrec). cbn [rbind].
    rewrite Hid. cbn [rbind]. rewrite py_eq_int_refl. cbn [snd].
    unfold after_load. rewrite stored_rewritten_on_disk. reflexivity.
  - assert (Hf := add_favorite_not_array movie w Hs).
    rewrite add_favorite_not_array; [reflexivity|].
    rewrite <- Hs. by apply stored_files.
Qed.

(** The store at work: a first favorite creates the file, a second call
    with the same movie adds nothing, removing an absent id rewrites the
    same array, and a file that is not JSON stops every operation. *)
Example add_creates_the_file :
  on_disk (exec (add_favorite fight_club) empty_world)
  = Some (JsonText (PyList [fight_club_record])).
Proof. reflexivity. Qed.

Example add_twice_stores_once :
  stored (exec (add_favorite fight_club)
            (exec (add_favorite fight_club) (world_with [alien_record])))
  = Some [alien_record; fight_club_record].
Proof. reflexivity. Qed.

Example remove_absent_id_rewrites :
  trace (exec (remove_favorite (PyInt 7)) (world_with [alien_record]))
  = [ EvRead FAVORITES_FILE;
      EvWrite FAVORITES_FILE (PyList [alien_record]) ].
Proof. reflexivity. Qed.

Example add_on_malformed_file :
  add_favorite fight_club
    (World {[ FAVORITES_FILE := Malformed (lit "[{") ]} no_remote []
           PyNone 4300)
  = (Raise JSONDecodeError,
     World {[ FAVORITES_FILE := Malformed (lit "[{") ]} no_remote
           [EvRead FAVORITES_FILE] PyNone 4300).
Proof. reflexivity. Qed.

(** The id of C1 has to equal itself.  Integers do; the float NaN does
    not, and a movie carrying it is appended at every call. *)
Example add_twice_with_nan_id :
  stored (exec (add_favorite (PyDict [(lit "id", PyFloat nan)]))
            (exec (add_favorite (PyDict [(lit "id", PyFloat nan)]))
                  empty_world))
  = Some [ PyDict [ (lit "id", PyFloat nan); (lit "title", PyNone);
                    (lit "poster_path", PyNone);
                    (lit "vote_average", PyNone);
                    (lit "release_date", PyStr []) ];
           PyDict [ (lit "id", PyFloat nan); (lit "title", PyNone);
                    (lit "poster_path", PyNone);
                    (lit "vote_average", PyNone);
                    (lit "release_date", PyStr []) ] ].
Proof. reflexivity. Qed.

(** C1. [add_favorite] is idempotent.  For a movie with an integer id:
    when the stored array already holds a record with that id, the call
    only reads the file, so the array is what it was (same records, same
    length), and it returns normally when every stored record has an id;
    a second call of [add_favorite] with the same movie never changes the
    file the first call left; and two calls on a store without the id
    leave exactly one record with it. *)
Theorem add_favorite_idempotent (movie : pyval) (i : Z) (w : world) :
  getitem movie (lit "id") = Ok (PyInt i) ->
  (forall favs,
     stored w = Some favs ->
     Exists (fun f => id_is (PyInt i) f = true) favs ->
     exec (add_favorite movie) w = log (EvRead FAVORITES_FILE) w /\
     stored (exec (add_favorite movie) w) = Some favs /\
     (Forall has_an_id favs -> outcome (add_favorite movie) w = Ok tt)) /\
  files (exec (add_favorite movie) (exec (add_favorite movie) w))
  = files (exec (add_favorite movie) w) /\
  (forall favs,
     stored w = Some favs ->
     List.filter (id_is (PyInt i)) favs = [] ->
     outcome (add_favorite movie) w = Ok tt ->
     exists record,
       stored (exec (add_favorite movie) (exec (add_favorite movie) w))
       = Some (favs ++ [record]) /\
       List.filter (id_is (PyInt i)) (favs ++ [record]) = [record]).
Proof.
  intros Hid. split; [|split].
  - intros favs Hs Hex.
    assert (Hfound : py_any (same_id_as_movie movie) favs <> Ok false).
    { apply py_any_found. eapply Exists_impl; [exact Hex|].
      intros f Hf. by apply (same_id_as_movie_id_is _ _ _ Hid). }
    assert (Hload : after_load w = log (EvRead FAVORITES_FILE) w).
    { unfold after_load. unfold stored in Hs.
      destruct (on_disk w); [reflexivity|].
      injection Hs as <-. by apply Exists_nil in Hex. }
    unfold exec, outcome. rewrite (add_favorite_on_array _ _ _ Hs), <- Hload.
    assert (Hs' : stored (after_load w) = Some favs)
      by (rewrite <- Hs; apply stored_files, files_after_load).
    destruct (py_any (same_id_as_movie movie) favs) as [[]|] eqn:Hany;
      [| congruence |]; cbn [fst snd]; (split; [reflexivity|]);
      (split; [exact Hs'|]); intros Hall; [reflexivity|].
    destruct (py_any_total (same_id_as_movie movie) favs) as [b Hb];
      [|congruence].
    eapply Forall_impl; [exact Hall|]. intros f Hf.
    by apply (same_id_as_movie_total _ _ _ Hid).
  - by apply (add_favorite_again movie i).
  - intros favs Hs Hnone. unfold outcome, exec at 2.
    rewrite (add_favorite_on_array _ _ _ Hs).
    destruct (py_any (same_id_as_movie movie) favs) as [[]|] eqn:Hany.
    + exfalso. clear -Hany Hnone Hid.
      induction favs as [|f favs IH]; cbn [py_any] in Hany; [discriminate|].
      cbn [List.filter] in Hnone.
      destruct (same_id_as_movie movie f) as [[]|] eqn:Hf; try discriminate.
      * unfold same_id_as_movie, id_is in *.
        destruct (getitem f (lit "id")); [|discriminate].
        cbn [rbind] in Hf. rewrite Hid in Hf. cbn [rbind] in Hf.
        injection Hf as Hf. rewrite Hf in Hnone. discriminate.
      * destruct (id_is (PyInt i) f); [discriminate|]. auto.
    + destruct (favorite_record movie) as [record|e] eqn:Hrec;
        cbn [fst snd]; [|discriminate].
      intros _. exists record. split.
      * rewrite <- (stored_rewritten (favs ++ [record]) (after_load w)).
        apply stored_files. apply (add_favorite_again movie i w) in Hid as Hagain.
        unfold exec at 2 3 in Hagain.
        rewrite (add_favorite_on_array _ _ _ Hs), Hany, Hrec in Hagain.
        exact Hagain.
      * rewrite List.filter_app. rewrite Hnone. cbn [List.filter app].
        unfold id_is at 1. rewrite (favorite_record_id _ _ _ Hid Hrec).
        by rewrite py_eq_int_refl.
    + discriminate.
Qed.

Lemma add_favorite_idempotent_witness :
  getitem fight_club (lit "id") = Ok (PyInt 550) /\
  files (exec (add_favorite fight_club)
          (exec (add_favorite fight_club) (world_with [alien_record])))
  = files (exec (add_favorite fight_club) (world_with [alien_record])).
Proof.
  split; [reflexivity|].
  exact (proj1 (proj2 (add_favorite_idempotent fight_club 550
                         (world_with [alien_record]) eq_refl))).
Defined.

Lemma favorite_record_has_id movie record :
  favorite_record movie = Ok record ->
  exists mid, getitem movie (lit "id") = Ok mid.
Proof.
  unfold favorite_record.
  destruct (getitem movie (lit "id")) as [mid|]; [eauto|discriminate].
Qed.

(** C2. The store keeps at most one record per id.  From a stored array
    in which no two records share an id, a call of [add_favorite] that
    returns leaves either the same array or the array with one more
    record at its end, again with no id twice; that record has exactly
    the five fields id, title, poster_path, vote_average and release_date,
    each holding the value the movie has for it at the call.  A call of
    [remove_favorite] that returns leaves an array with no id twice. *)
Theorem store_keeps_one_record_per_id (w : world) (favs : list pyval) :
  stored w = Some favs ->
  distinct_ids favs = true ->
  (forall movie,
     outcome (add_favorite movie) w = Ok tt ->
     exists favs',
       stored (exec (add_favorite movie) w) = Some favs' /\
       distinct_ids favs' = true /\
       (favs' = favs \/
        exists kv,
          favs' = favs ++ [PyDict kv] /\
          List.map fst kv = record_fields /\
          forall k v, In k record_fields ->
                      getitem movie k = Ok v -> assoc k kv = Some v)) /\
  (forall movie_id,
     outcome (remove_favorite movie_id) w = Ok tt ->
     exists favs',
       stored (exec (remove_favorite movie_id) w) = Some favs' /\
       distinct_ids favs' = true).
Proof.
  intros Hs Hd. split.
  - intros movie. unfold outcome, exec.
    rewrite (add_favorite_on_array _ _ _ Hs).
    assert (Hs' : stored (after_load w) = Some favs)
      by (rewrite <- Hs; apply stored_files, files_after_load).
    destruct (py_any (same_id_as_movie movie) favs) as [[]|] eqn:Hany;
      cbn [fst snd]; [eauto | | discriminate].
    destruct (favorite_record movie) as [record|e] eqn:Hrec;
      cbn [fst snd]; [|discriminate].
    intros _. exists (favs ++ [record]).
    destruct (favorite_record_has_id _ _ Hrec) as [mid Hid].
    split; [apply stored_rewritten|]. split.
    + eapply distinct_ids_snoc; eauto using favorite_record_id.
    + right.
      destruct (favorite_record_ok _ _ Hid) as (t & p & v & r & E & Ht & Hp & Hv & Hr).
      rewrite E in Hrec. injection Hrec as <-.
      eexists. split; [reflexivity|]. split; [reflexivity|].
      intros k x Hk Hx. cbn [In record_fields] in Hk.
      destruct Hk as [<-|[<-|[<-|[<-|[<-|[]]]]]]; lookup_field.
      * congruence.
      * rewrite (getitem_dict_get _ _ _ PyNone Hx) in Ht. congruence.
      * rewrite (getitem_dict_get _ _ _ PyNone Hx) in Hp. congruence.
      * rewrite (getitem_dict_get _ _ _ PyNone Hx) in Hv. congruence.
      * rewrite (getitem_dict_get _ _ _ (PyStr []) Hx) in Hr. congruence.
  - intros movie_id. unfold outcome, exec.
    rewrite (remove_favorite_on_array _ _ _ Hs).
    rewrite (py_filter_has_other_id _ _ (distinct_ids_has_ids _ Hd)).
    cbn [fst snd]. intros _. eexists. split; [apply stored_rewritten|].
    by apply distinct_ids_filter.
Qed.

Lemma store_keeps_one_record_per_id_witness :
  stored (world_with [alien_record]) = Some [alien_record] /\
  distinct_ids [alien_record] = true /\
  exists favs',
    stored (exec (add_favorite fight_club) (world_with [alien_record]))
    = Some favs' /\
    distinct_ids favs' = true.
Proof.
  split; [reflexivity|]. split; [reflexivity|].
  destruct (store_keeps_one_record_per_id (world_with [alien_record])
              [alien_record] eq_refl eq_refl) as [Hadd _].
  destruct (Hadd fight_club eq_refl) as (favs' & Hs & Hd & _).
  exists favs'. split; assumption.
Defined.



(** *** The catalog client *)

Lemma discover_params_shape api_key genre_id min_rating year page :
  discover_params api_key genre_id min_rating year page =
  [ (lit "api_key", api_key);
    (lit "language", PyStr (lit "ja"));
    (lit "with_genres", genre_id);
    (lit "vote_average.gte", min_rating);
    (lit "sort_by", PyStr (lit "popularity.desc"));
    (lit "page", page) ]
  ++ (if truthy year then [(lit "primary_release_year", year)] else []).
Proof.
  unfold discover_params. destruct (truthy year); [|reflexivity].
  cbn [dict_set]. repeat rewrite decide_False by literal_ne. reflexivity.
Qed.

Lemma discover_url :
  BASE_URL ++ lit "/discover/movie"
  = lit "https://api.themoviedb.org/3/discover/movie".
Proof. vm_compute. reflexivity. Qed.

Lemma discover_movies_run genre_id min_rating year page w :
  discover_movies genre_id min_rating year page w =
  let req := Get (BASE_URL ++ lit "/discover/movie")
                 (discover_params (API_KEY w) genre_id min_rating year page) in
  let w' := log (EvGet req) w in
  match remote w (trace w) req with
  | NoResponse => (Raise ConnectionError, w')
  | Response st body =>
      if (400 <=? st) && (st <? 600) then (Raise (HTTPError st), w')
      else match body with
           | Some b => (getitem b (lit "results"), w')
           | None => (Raise JSONDecodeError, w')
           end
  end.
Proof.
  unfold discover_movies, requests_get, raise_for_status, response_json.
  unfold bind, gets, lift, ret, raise. cbn zeta.
  destruct (remote w _ _) as [|st body]; [reflexivity|]. cbn [fst snd].
  destruct ((400 <=? st) && (st <? 600)); [reflexivity|].
  destruct body; reflexivity.
Qed.

(** The request of a call, and the world it leaves: one more entry in
    the journal. *)
Lemma discover_movies_exec genre_id min_rating year page w :
  exec (discover_movies genre_id min_rating year page) w
  = log (EvGet (Get (lit "https://api.themoviedb.org/3/discover/movie")
                    (discover_params (API_KEY w) genre_id min_rating year page)))
        w.
Proof.
  unfold exec. rewrite discover_movies_run, discover_url. cbn zeta.
  destruct (remote w (trace w) _) as [|st body]; [reflexivity|].
  destruct ((400 <=? st) && (st <? 600)); [reflexivity|].
  destruct body; reflexivity.
Qed.

(** C7. Every call of [discover_movies] issues exactly one GET request,
    to the discover endpoint, with the API key, the locale [ja], the
    genre, the minimum rating, the sort order [popularity.desc] and the
    page; [primary_release_year] is the year when a year is given, that is
    when the argument is true in Python's sense, and is absent otherwise.
    Nothing else changes.  When the answer is a JSON document with a
    status outside 400-599, the call returns its [results]; a status
    inside 400-599 raises. *)
Theorem discover_movies_issues_one_request
    (genre_id min_rating year page : pyval) (w : world) :
  let req :=
    Get (lit "https://api.themoviedb.org/3/discover/movie")
        ([ (lit "api_key", API_KEY w);
           (lit "language", PyStr (lit "ja"));
           (lit "with_genres", genre_id);
           (lit "vote_average.gte", min_rating);
           (lit "sort_by", PyStr (lit "popularity.desc"));
           (lit "page", page) ]
         ++ (if truthy year then [(lit "primary_release_year", year)] else []))
  in
  exec (discover_movies genre_id min_rating year page) w = log (EvGet req) w /\
  (forall st body results,
     remote w (trace w) req = Response st (Some body) ->
     ~ (400 <= st < 600) ->
     getitem body (lit "results") = Ok results ->
     outcome (discover_movies genre_id min_rating year page) w = Ok results) /\
  (forall st body,
     remote w (trace w) req = Response st body ->
     400 <= st < 600 ->
     outcome (discover_movies genre_id min_rating year page) w
     = Raise (HTTPError st)).
Proof.
  intros req. split; [|split].
  - rewrite discover_movies_exec, discover_params_shape. reflexivity.
  - unfold outcome. rewrite discover_movies_run.
    rewrite discover_url, discover_params_shape. fold req. cbn zeta.
    intros st body results -> Hst Hres.
    destruct ((400 <=? st) && (st <? 600)) eqn:E.
    + exfalso. apply Hst. apply andb_true_iff in E. lia.
    + cbn [fst]. exact Hres.
  - unfold outcome. rewrite discover_movies_run.
    rewrite discover_url, discover_params_shape. fold req. cbn zeta.
    intros st body -> Hst.
    replace ((400 <=? st) && (st <? 600)) with true; [reflexivity|].
    symmetry. apply andb_true_iff. lia.
Qed.

Lemma discover_movies_issues_one_request_witness :
  ~ (400 <= 200 < 600) /\
  outcome (discover_movies (PyInt 28) (PyFloat 8) (PyInt 2023) (PyInt 1))
          online_world
  = Ok (PyList [fight_club]).
Proof.
  assert (Hst : ~ (400 <= 200 < 600)) by lia.
  split; [exact Hst|].
  exact (proj1 (proj2 (discover_movies_issues_one_request
                         (PyInt 28) (PyFloat 8) (PyInt 2023) (PyInt 1)
                         online_world))
           200 _ (PyList [fight_club]) eq_refl Hst eq_refl).
Defined.

(** C10. [primary_release_year] is in the request parameters exactly when
    the year argument is true in Python's sense.  Neither [None] nor the
    integer 0 is: the year field "0" is a digit string, it parses to 0,
    and the request that goes out for it carries the six fixed parameters
    and no release year. *)
Theorem discover_movies_year_only_when_truthy :
  (forall api_key genre_id min_rating year page,
     assoc (lit "primary_release_year")
           (discover_params api_key genre_id min_rating year page)
     = if truthy year then Some year else None) /\
  truthy PyNone = false /\
  truthy (PyInt 0) = false /\
  (forall limit, year_value limit (lit "0") = Ok (PyInt 0)) /\
  (forall genre_id min_rating page w year,
     year = PyNone \/ year = PyInt 0 ->
     trace (exec (discover_movies genre_id min_rating year page) w)
     = trace w ++
       [EvGet (Get (lit "https://api.themoviedb.org/3/discover/movie")
                   [ (lit "api_key", API_KEY w);
                     (lit "language", PyStr (lit "ja"));
                     (lit "with_genres", genre_id);
                     (lit "vote_average.gte", min_rating);
                     (lit "sort_by", PyStr (lit "popularity.desc"));
                     (lit "page", page) ])]).
Proof.
  split; [|split; [reflexivity|split; [reflexivity|split]]].
  - intros. rewrite discover_params_shape.
    destruct (truthy year); cbn [app]; lookup_field; reflexivity.
  - intros limit. reflexivity.
  - intros genre_id min_rating page w year Hyear.
    rewrite discover_movies_exec, discover_params_shape.
    destruct Hyear as [-> | ->]; reflexivity.
Qed.

Lemma discover_movies_year_only_when_truthy_witness :
  trace (exec (discover_movies (PyInt 28) (PyFloat 8) (PyInt 0) (PyInt 1))
              online_world)
  = [EvGet (Get (lit "https://api.themoviedb.org/3/discover/movie")
                [ (lit "api_key", PyStr (lit "k"));
                  (lit "language", PyStr (lit "ja"));
                  (lit "with_genres", PyInt 28);
                  (lit "vote_average.gte", PyFloat 8);
                  (lit "sort_by", PyStr (lit "popularity.desc"));
                  (lit "page", PyInt 1) ])].
Proof.
  exact (proj2 (proj2 (proj2 (proj2 discover_movies_year_only_when_truthy)))
           (PyInt 28) (PyFloat 8) (PyInt 1) online_world (PyInt 0)
           (or_intror eq_refl)).
Defined.

(** *** The year field *)

Lemma year_value_not_digit limit year :
  str_isdigit year = false -> year_value limit year = Ok PyNone.
Proof. unfold year_value. by intros ->. Qed.

Example year_value_2023 : year_value 4300 (lit "2023") = Ok (PyInt 2023).
Proof. reflexivity. Qed.

Example year_value_abc : year_value 4300 (lit "abc") = Ok PyNone.
Proof. reflexivity. Qed.

Example year_value_empty : year_value 4300 [] = Ok PyNone.
Proof. reflexivity. Qed.

(** Digits of other scripts are digits for both tests: full-width
    "２０２３" is the year 2023. *)
Example year_value_fullwidth :
  year_value 4300 [0xff12; 0xff10; 0xff12; 0xff13]%N = Ok (PyInt 2023).
Proof. reflexivity. Qed.

Lemma ascii_digit_is_decimal c :
  is_ascii_digit c = true -> decimal_value c = Some (Z.of_N c - 48).
Proof.
  unfold is_ascii_digit. intros [H1 H2]%andb_true_iff.
  apply N.leb_le in H1, H2.
  unfold decimal_value, decimal_runs. cbn [decimal_in].
  replace ((48 <=? c)%N && (c <? 48 + 10)%N) with true.
  - f_equal. rewrite N.mod_small by lia. lia.
  - symmetry. apply andb_true_iff. split; [apply N.leb_le | apply N.ltb_lt]; lia.
Qed.

Lemma ascii_digit_is_digit_char c :
  is_ascii_digit c = true -> is_digit_char c = true.
Proof.
  intros H. unfold is_digit_char, is_decimal_char.
  by rewrite (ascii_digit_is_decimal _ H).
Qed.

Lemma to_ascii_decimal_ascii_digits s :
  forallb is_ascii_digit s = true -> to_ascii_decimal s = Some s.
Proof.
  induction s as [|c s IH]; [reflexivity|].
  cbn [forallb to_ascii_decimal]. intros [Hc Hs]%andb_true_iff.
  rewrite (IH Hs).
  unfold is_ascii_digit in Hc. apply andb_true_iff in Hc as [_ Hc].
  apply N.leb_le in Hc.
  replace (c <? 127)%N with true; [reflexivity|].
  symmetry. apply N.ltb_lt. lia.
Qed.

Lemma ascii_digit_of_is_ascii_digit c :
  is_ascii_digit c = true -> ascii_digit c = Some (Z.of_N c - 48).
Proof. unfold is_ascii_digit, ascii_digit. by intros ->. Qed.

Lemma scan_digits_ascii_digits s acc n after_us :
  forallb is_ascii_digit s = true ->
  scan_digits acc n after_us s
  = Some (fold_left (fun a c => 10 * a + (Z.of_N c - 48)) s acc,
          (n + length s)%nat,
          match s with [] => after_us | _ => false end,
          []).
Proof.
  revert acc n after_us. induction s as [|c s IH]; intros acc n after_us.
  - intros _. cbn. by rewrite Nat.add_0_r.
  - cbn [forallb]. intros [Hc Hs]%andb_true_iff.
    cbn [scan_digits fold_left length].
    rewrite (ascii_digit_of_is_ascii_digit _ Hc), (IH _ _ _ Hs).
    replace (n + S (length s))%nat with (S n + length s)%nat by lia.
    by destruct s.
Qed.

(** On a string of ASCII digits within the interpreter's digit limit the
    year field is the integer the digits spell. *)
Lemma year_value_ascii_digits limit s :
  s <> [] ->
  forallb is_ascii_digit s = true ->
  (length s <= 640 \/ limit = 0 \/ length s <= limit)%nat ->
  year_value limit s = Ok (PyInt (digits_value s)).
Proof.
  intros Hne Hdig Hlen. unfold year_value, str_isdigit.
  rewrite bool_decide_eq_false_2 by done. cbn [negb andb].
  replace (forallb is_digit_char s) with true.
  2:{ symmetry. apply forallb_forall. intros c Hc.
      apply ascii_digit_is_digit_char.
      by apply (proj1 (forallb_forall _ _) Hdig). }
  unfold py_int. rewrite (to_ascii_decimal_ascii_digits _ Hdig).
  destruct s as [|c s]; [done|].
  assert (Hc : is_ascii_digit c = true)
    by (cbn [forallb] in Hdig; by apply andb_true_iff in Hdig as [? _]).
  pose proof Hc as Hc'. unfold is_ascii_digit in Hc'.
  apply andb_true_iff in Hc' as [H1 H2]. apply N.leb_le in H1, H2.
  assert (Hsp : is_c_space c = false).
  { unfold is_c_space. apply orb_false_iff. split.
    - apply andb_false_iff. right. apply N.leb_gt. lia.
    - apply N.eqb_neq. lia. }
  cbn [skip_spaces]. rewrite Hsp. unfold strip_sign.
  rewrite (proj2 (N.eqb_neq c 43)) by lia.
  rewrite (proj2 (N.eqb_neq c 45)) by lia.
  unfold starts_with_underscore.
  rewrite (proj2 (N.eqb_neq c 95)) by lia.
  rewrite (scan_digits_ascii_digits _ _ _ _ Hdig).
  cbn [orb skip_spaces]. rewrite Nat.add_0_l.
  rewrite bool_decide_eq_false_2 by (cbn [length]; lia).
  rewrite bool_decide_eq_true_2 by done. cbn [negb orb].
  replace ((640 <? length (c :: s))%nat && (0 <? limit)%nat
           && (limit <? length (c :: s))%nat) with false; [reflexivity|].
  symmetry. destruct Hlen as [H|[H|H]].
  - rewrite (proj2 (Nat.ltb_ge _ _) H). reflexivity.
  - subst limit. apply andb_false_iff. left. apply andb_false_iff. by right.
  - apply andb_false_iff. right. by apply Nat.ltb_ge.
Qed.

(** C5, at the input that breaks it.  The one-character string "²"
    (superscript two, U+00B2) passes [str.isdigit], so line 173 calls
    [int] on it, and [int] raises [ValueError]: the character is a digit
    but not a decimal digit.  This holds whatever the interpreter's digit
    limit is. *)
Theorem year_value_raises_on_superscript_two :
  forall limit : nat,
    str_isdigit [0xb2%N] = true /\
    year_value limit [0xb2%N] = Raise ValueError.
Proof. intros limit. split; reflexivity. Qed.

(** A year field longer than the interpreter's digit limit raises as
    well, although it is a string of ASCII digits. *)
Example year_value_raises_on_long_input :
  year_value 4300 (repeat 49%N 4301) = Raise ValueError.
Proof. vm_compute. reflexivity. Qed.

(** *** The movie card *)

Lemma card_overview_of_text d s :
  assoc (lit "overview") d = Some (PyStr s) -> s <> [] ->
  card_overview (PyDict d) = Ok (PyStr s).
Proof.
  intros Hd Hs. unfold card_overview. cbn [dict_get]. rewrite Hd.
  cbn [rbind truthy]. by rewrite bool_decide_eq_false_2.
Qed.

(** C8. The synopsis written for an overview of at most 120 characters is
    the overview itself, with nothing appended; for a longer overview it
    is its first 120 characters followed by the three full stops "...",
    123 characters in all.  ([overview] is the variable of line 112: the
    movie's overview, or the placeholder of line 104 when the movie has
    none or an empty one.) *)
Theorem synopsis_truncates_at_120 (overview : list N) :
  ((length overview <= 120)%nat -> synopsis overview = overview) /\
  ((120 < length overview)%nat ->
   synopsis overview = take 120 overview ++ [46; 46; 46]%N /\
   length (synopsis overview) = 123%nat).
Proof.
  unfold synopsis. split; intros Hlen.
  - rewrite bool_decide_eq_false_2 by lia. reflexivity.
  - rewrite bool_decide_eq_true_2 by lia. split; [reflexivity|].
    rewrite length_app, length_take. cbn [length lit]. 
    change (length (lit "...")) with 3%nat. lia.
Qed.

Lemma synopsis_truncates_at_120_witness :
  synopsis (repeat 97%N 100) = repeat 97%N 100 /\
  synopsis (repeat 97%N 130) = repeat 97%N 120 ++ [46; 46; 46]%N.
Proof.
  split.
  - apply (proj1 (synopsis_truncates_at_120 (repeat 97%N 100))).
    rewrite repeat_length. lia.
  - apply (proj1 (proj2 (synopsis_truncates_at_120 (repeat 97%N 130))
                    ltac:(rewrite repeat_length; lia))).
Defined.

(** *** The search session *)

Ltac run_session :=
  repeat (progress
    (unfold exec, load_more_handler, search_handler, bind, session, update,
       attribute, gets, modify, in_world, lift, ret, raise;
     cbn [fst snd app_session app_world ss_movies ss_page ss_genre_id
          ss_min_rating ss_year_value set_page set_movies set_genre_id
          set_min_rating set_year_value int_max_str_digits])).

Lemma list_iadd_extends L more extended :
  list_iadd (PyList L) more = Ok extended ->
  exists xs, extended = PyList (L ++ xs).
Proof.
  cbn [list_iadd]. destruct (py_iter more) as [xs|]; [|discriminate].
  cbn [rbind]. intros [= <-]. eauto.
Qed.

(** C9. "Load more" never truncates.  From a session showing the list
    [L]: whatever the handler does, and also when it raises, the list it
    leaves begins with [L], in order; when the catalog call for the next
    page returns the list [more] (empty or not), the handler returns, the
    page number is one more and the list is [L ++ more].  A search is what
    replaces the list: its handler leaves page 1 and the results of
    page 1. *)
Theorem load_more_never_truncates (a : app_state) (L : list pyval) :
  ss_movies (app_session a) = PyList L ->
  (exists xs,
     ss_movies (app_session (exec load_more_handler a)) = PyList (L ++ xs)) /\
  (forall genre_id min_rating yv more w',
     ss_genre_id (app_session a) = Some genre_id ->
     ss_min_rating (app_session a) = Some min_rating ->
     ss_year_value (app_session a) = Some yv ->
     discover_movies genre_id min_rating yv
       (PyInt (ss_page (app_session a) + 1)) (app_world a)
     = (Ok (PyList more), w') ->
     load_more_handler a
     = (Ok tt,
        AppState w'
          (Session (ss_page (app_session a) + 1) (PyList (L ++ more))
                   (Some genre_id) (Some min_rating) (Some yv)))) /\
  (forall genre_map name min_rating year genre_id yv found w',
     getitem genre_map name = Ok genre_id ->
     year_value (int_max_str_digits (app_world a)) year = Ok yv ->
     discover_movies genre_id min_rating yv (PyInt 1) (app_world a)
     = (Ok found, w') ->
     search_handler genre_map name min_rating year a
     = (Ok tt,
        AppState w'
          (Session 1 found (Some genre_id) (Some min_rating) (Some yv)))).
Proof.
  destruct a as [w [p movies g r y]]. cbn [app_session app_world ss_movies
    ss_page ss_genre_id ss_min_rating ss_year_value]. intros ->.
  split; [|split].
  - exists (match g, r, y with
            | Some g', Some r', Some y' =>
                match discover_movies g' r' y' (PyInt (p + 1)) w with
                | (Ok more, _) =>
                    match py_iter more with Ok xs => xs | Raise _ => [] end
                | (Raise _, _) => []
                end
            | _, _, _ => []
            end).
    destruct g as [g'|]; [|run_session; by rewrite app_nil_r].
    destruct r as [r'|]; [|run_session; by rewrite app_nil_r].
    destruct y as [y'|]; [|run_session; by rewrite app_nil_r].
    run_session.
    destruct (discover_movies g' r' y' (PyInt (p + 1)) w) as [[more|e] w1];
      run_session; [|by rewrite app_nil_r].
    cbn [list_iadd].
    destruct (py_iter more) as [xs|e]; cbn [rbind]; run_session;
      [reflexivity | by rewrite app_nil_r].
  - intros genre_id min_rating yv more w' [= ->] [= ->] [= ->] Hcall.
    run_session. rewrite Hcall. run_session. reflexivity.
  - intros genre_map name min_rating year genre_id yv found w' Hg Hy Hcall.
    run_session. rewrite Hg. run_session. rewrite Hy. run_session.
    rewrite Hcall. run_session. reflexivity.
Qed.

Lemma load_more_never_truncates_witness :
  ss_movies searched_session = PyList [fight_club] /\
  load_more_handler (AppState online_world searched_session)
  = (Ok tt,
     AppState
       (exec (discover_movies (PyInt 28) (PyFloat 8) (PyInt 2023) (PyInt 2))
             online_world)
       (Session 2 (PyList ([fight_club] ++ [fight_club]))
                (Some (PyInt 28)) (Some (PyFloat 8)) (Some (PyInt 2023)))).
Proof.
  split; [reflexivity|].
  exact (proj1 (proj2 (load_more_never_truncates
                         (AppState online_world searched_session)
                         [fight_club] eq_refl))
           (PyInt 28) (PyFloat 8) (PyInt 2023) [fight_club] _
           eq_refl eq_refl eq_refl eq_refl).
Defined.

(** * Further properties of the store *)

(** *** What each operation does to the world *)

Lemma py_any_ext {A : Type} (p q : A -> result bool) l :
  (forall x, p x = q x) -> py_any p l = py_any q l.
Proof.
  intros Hpq. induction l as [|x l IH]; [reflexivity|].
  cbn [py_any]. rewrite Hpq, IH. reflexivity.
Qed.

Lemma same_id_as_movie_has_id movie mid f :
  getitem movie (lit "id") = Ok mid ->
  same_id_as_movie movie f = has_id mid f.
Proof.
  intros Hid. unfold same_id_as_movie, has_id.
  destruct (getitem f (lit "id")); cbn [rbind]; [|reflexivity].
  by rewrite Hid.
Qed.

Lemma py_any_has_id movie_id favs :
  Forall has_an_id favs ->
  py_any (has_id movie_id) favs = Ok (existsb (id_is movie_id) favs).
Proof.
  induction 1 as [|f favs [fid Hf] _ IH]; [reflexivity|].
  cbn [py_any existsb]. unfold has_id at 1, id_is at 1. rewrite Hf.
  cbn [rbind]. destruct (py_eq fid movie_id); [reflexivity|exact IH].
Qed.

Lemma py_filter_kept {A : Type} (p : A -> result bool) l kept :
  py_filter p l = Ok kept -> Forall (fun x => p x = Ok true) kept.
Proof.
  revert kept. induction l as [|x l IH]; intros kept; cbn [py_filter].
  - intros [= <-]. constructor.
  - destruct (p x) as [b|] eqn:Hx; [|discriminate].
    destruct (py_filter p l) as [r|]; [|discriminate].
    intros [= <-]. destruct b; [constructor|]; auto.
Qed.

Lemma is_favorite_run movie_id w :
  is_favorite movie_id w =
  match on_disk w with
  | Some (Malformed _) => (Raise JSONDecodeError, after_load w)
  | Some (JsonText v) =>
      (rbind (py_iter v) (py_any (has_id movie_id)), after_load w)
  | None => (Ok false, w)
  end.
Proof.
  unfold is_favorite, after_load. unfold bind at 1.
  rewrite load_favorites_run.
  destruct (on_disk w) as [[v|t]|]; try reflexivity.
  unfold bind, lift. destruct (py_iter v); reflexivity.
Qed.

Lemma is_favorite_on_array movie_id w favs :
  stored w = Some favs ->
  is_favorite movie_id w = (py_any (has_id movie_id) favs, after_load w).
Proof.
  unfold stored. rewrite is_favorite_run. unfold after_load.
  destruct (on_disk w) as [[[]|]|]; try discriminate; by intros [= <-].
Qed.

Lemma remove_favorite_run movie_id w :
  remove_favorite movie_id w =
  match on_disk w with
  | Some (Malformed _) => (Raise JSONDecodeError, after_load w)
  | Some (JsonText v) =>
      match rbind (py_iter v) (py_filter (has_other_id movie_id)) with
      | Ok kept => (Ok tt, rewritten (PyList kept) (after_load w))
      | Raise e => (Raise e, after_load w)
      end
  | None => (Ok tt, rewritten (PyList []) w)
  end.
Proof.
  unfold remove_favorite, after_load. unfold bind at 1.
  rewrite load_favorites_run.
  destruct (on_disk w) as [[v|t]|]; try reflexivity.
  unfold bind, lift. destruct (py_iter v) as [items|]; [|reflexivity].
  cbn [rbind]. destruct (py_filter _ items); reflexivity.
Qed.

Lemma add_favorite_run movie w :
  add_favorite movie w =
  match on_disk w with
  | Some (Malformed _) => (Raise JSONDecodeError, after_load w)
  | Some (JsonText v) =>
      match rbind (py_iter v) (py_any (same_id_as_movie movie)) with
      | Raise e => (Raise e, after_load w)
      | Ok true => (Ok tt, after_load w)
      | Ok false =>
          match v with
          | PyList l =>
              match favorite_record movie with
              | Ok record =>
                  (Ok tt, rewritten (PyList (l ++ [record])) (after_load w))
              | Raise e => (Raise e, after_load w)
              end
          | _ => (Raise AttributeError, after_load w)
          end
      end
  | None =>
      match favorite_record movie with
      | Ok record => (Ok tt, rewritten (PyList [record]) w)
      | Raise e => (Raise e, w)
      end
  end.
Proof.
  unfold add_favorite, after_load. unfold bind at 1.
  rewrite load_favorites_run.
  destruct (on_disk w) as [[v|t]|]; [| reflexivity |].
  - unfold bind, lift, ret, raise.
    destruct (py_iter v) as [items|]; [|reflexivity]. cbn [rbind].
    destruct (py_any _ items) as [[]|]; cbn [negb]; try reflexivity.
    destruct v; reflexivity.
  - reflexivity.
Qed.

(** [add_favorite] either leaves the world as [load_favorites] left it,
    or returns after one write. *)
Lemma add_favorite_effect movie w :
  exec (add_favorite movie) w = after_load w \/
  (outcome (add_favorite movie) w = Ok tt /\
   exists v, exec (add_favorite movie) w = rewritten v (after_load w)).
Proof.
  unfold exec, outcome. rewrite add_favorite_run.
  destruct (on_disk w) as [[v|t]|] eqn:E; [| by left |].
  - destruct (rbind _ _) as [[]|]; try (by left).
    destruct v; try (by left).
    destruct (favorite_record movie); [right; eauto | by left].
  - unfold after_load. rewrite E.
    destruct (favorite_record movie); [right; eauto | by left].
Qed.

Lemma remove_favorite_effect movie_id w :
  exec (remove_favorite movie_id) w = after_load w \/
  (outcome (remove_favorite movie_id) w = Ok tt /\
   exists v, exec (remove_favorite movie_id) w = rewritten v (after_load w)).
Proof.
  unfold exec, outcome. rewrite remove_favorite_run.
  destruct (on_disk w) as [[v|t]|] eqn:E; [| by left |].
  - destruct (rbind _ _); [right; eauto | by left].
  - right. split; [reflexivity|]. unfold after_load. rewrite E. eauto.
Qed.

Lemma is_favorite_effect movie_id w :
  exec (is_favorite movie_id) w = after_load w.
Proof.
  unfold exec. rewrite is_favorite_run. unfold after_load.
  by destruct (on_disk w) as [[v|t]|].
Qed.

Lemma add_favorite_success_array movie w :
  outcome (add_favorite movie) w = Ok tt -> exists favs, stored w = Some favs.
Proof.
  unfold outcome, stored. rewrite add_favorite_run.
  destruct (on_disk w) as [[v|t]|]; [| discriminate | eauto].
  destruct v; eauto; cbn [py_iter rbind]; try discriminate.
  - destruct s as [|c s]; cbn [List.map py_any]; [discriminate|].
    unfold same_id_as_movie at 1. cbn [getitem rbind]. discriminate.
  - destruct kv as [|[k x] kv]; cbn [List.map py_any]; [discriminate|].
    unfold same_id_as_movie at 1. cbn [getitem rbind fst]. discriminate.
Qed.

Lemma py_any_all_false {A : Type} (p : A -> result bool) l :
  Forall (fun x => p x = Ok false) l -> py_any p l = Ok false.
Proof.
  induction 1 as [|x l Hx _ IH]; [reflexivity|].
  cbn [py_any]. by rewrite Hx.
Qed.

Lemma py_filter_all_true {A : Type} (p : A -> result bool) l :
  Forall (fun x => p x = Ok true) l -> py_filter p l = Ok l.
Proof.
  induction 1 as [|x l Hx _ IH]; [reflexivity|].
  cbn [py_filter]. by rewrite Hx, IH.
Qed.

Lemma files_rewritten v w :
  files (rewritten v w) = <[FAVORITES_FILE := JsonText v]> (files w).
Proof. reflexivity. Qed.

Lemma on_disk_after_load w : on_disk (after_load w) = on_disk w.
Proof.
  unfold after_load. destruct (on_disk w) eqn:E; [by rewrite on_disk_log|exact E].
Qed.

Lemma stored_after_load w : stored (after_load w) = stored w.
Proof. apply stored_files, files_after_load. Qed.

(** X1. [is_favorite] answers whether some stored record carries the id,
    when every stored record has an id; and it never changes a file. *)
Theorem is_favorite_tells_membership
    (movie_id : pyval) (w : world) (favs : list pyval) :
  stored w = Some favs ->
  Forall has_an_id favs ->
  outcome (is_favorite movie_id) w = Ok (existsb (id_is movie_id) favs) /\
  files (exec (is_favorite movie_id) w) = files w.
Proof.
  intros Hs Hall. unfold outcome, exec.
  rewrite (is_favorite_on_array _ _ _ Hs). cbn [fst snd].
  split; [by apply py_any_has_id | apply files_after_load].
Qed.

Lemma is_favorite_tells_membership_witness :
  outcome (is_favorite (PyInt 550)) (world_with [alien_record; fight_club_record])
  = Ok true /\
  outcome (is_favorite (PyInt 7)) (world_with [alien_record; fight_club_record])
  = Ok false.
Proof.
  assert (Hids : Forall has_an_id [alien_record; fight_club_record]).
  { repeat constructor; eexists; reflexivity. }
  split.
  - exact (proj1 (is_favorite_tells_membership (PyInt 550)
                    (world_with [alien_record; fight_club_record])
                    [alien_record; fight_club_record] eq_refl Hids)).
  - exact (proj1 (is_favorite_tells_membership (PyInt 7)
                    (world_with [alien_record; fight_club_record])
                    [alien_record; fight_club_record] eq_refl Hids)).
Defined.

(** X2. After an [add_favorite] that returned, [is_favorite] of the
    movie's (integer) id answers [True]. *)
Theorem added_movie_is_favorite (movie : pyval) (i : Z) (w : world) :
  getitem movie (lit "id") = Ok (PyInt i) ->
  outcome (add_favorite movie) w = Ok tt ->
  outcome (is_favorite (PyInt i)) (exec (add_favorite movie) w) = Ok true.
Proof.
  intros Hid Hok. destruct (add_favorite_success_array _ _ Hok) as [favs Hs].
  revert Hok. unfold outcome, exec.
  rewrite (add_favorite_on_array _ _ _ Hs).
  assert (Hext : py_any (same_id_as_movie movie) favs
                 = py_any (has_id (PyInt i)) favs)
    by (apply py_any_ext; intros f; by apply same_id_as_movie_has_id).
  destruct (py_any (same_id_as_movie movie) favs) as [[]|] eqn:Hany;
    cbn [fst snd]; [| | discriminate].
  - intros _. rewrite (is_favorite_on_array _ _ favs)
      by (by rewrite stored_after_load).
    cbn [fst]. by rewrite <- Hext.
  - destruct (favorite_record movie) as [record|] eqn:Hrec; cbn [fst snd];
      [|discriminate].
    intros _. rewrite (is_favorite_on_array _ _ _ (stored_rewritten _ _)).
    cbn [fst]. rewrite py_any_app, <- Hext. unfold has_id.
    rewrite (favorite_record_id _ _ _ Hid Hrec). cbn [rbind].
    by rewrite py_eq_int_refl.
Qed.

Lemma added_movie_is_favorite_witness :
  outcome (is_favorite (PyInt 550))
          (exec (add_favorite fight_club) (world_with [alien_record]))
  = Ok true.
Proof.
  exact (added_movie_is_favorite fight_club 550 (world_with [alien_record])
           eq_refl eq_refl).
Defined.

Lemma remove_favorite_success movie_id w :
  outcome (remove_favorite movie_id) w = Ok tt ->
  exists kept,
    exec (remove_favorite movie_id) w = rewritten (PyList kept) (after_load w) /\
    Forall (fun f => has_other_id movie_id f = Ok true) kept.
Proof.
  unfold outcome, exec. rewrite remove_favorite_run.
  destruct (on_disk w) as [[v|t]|] eqn:E; [| discriminate |].
  - destruct (py_iter v) as [items|]; cbn [rbind]; [|discriminate].
    destruct (py_filter _ items) as [kept|] eqn:Hk; [|discriminate].
    intros _. exists kept. split; [reflexivity|].
    by eapply py_filter_kept.
  - intros _. exists []. split; [|constructor].
    cbn [snd]. unfold after_load. by rewrite E.
Qed.

Lemma has_other_id_not_has_id movie_id f :
  has_other_id movie_id f = Ok true -> has_id movie_id f = Ok false.
Proof.
  unfold has_other_id, has_id.
  destruct (getitem f (lit "id")); cbn [rbind]; [|discriminate].
  intros [= H]. by rewrite (proj1 (negb_true_iff _) H).
Qed.

(** X3. After a [remove_favorite] that returned, [is_favorite] of the
    same id answers [False], whatever the id and the file were. *)
Theorem removed_id_is_not_favorite (movie_id : pyval) (w : world) :
  outcome (remove_favorite movie_id) w = Ok tt ->
  outcome (is_favorite movie_id) (exec (remove_favorite movie_id) w)
  = Ok false.
Proof.
  intros Hok. destruct (remove_favorite_success _ _ Hok) as (kept & -> & Hk).
  unfold outcome.
  rewrite (is_favorite_on_array _ _ _ (stored_rewritten _ _)). cbn [fst].
  apply py_any_all_false. eapply Forall_impl; [exact Hk|].
  intros f. apply has_other_id_not_has_id.
Qed.

Lemma removed_id_is_not_favorite_witness :
  outcome (is_favorite (PyInt 348))
          (exec (remove_favorite (PyInt 348))
                (world_with [alien_record; fight_club_record]))
  = Ok false.
Proof.
  exact (removed_id_is_not_favorite (PyInt 348)
           (world_with [alien_record; fight_club_record]) eq_refl).
Defined.





(** X5. [remove_favorite] is idempotent on the files: a second call with
    the same id leaves every file as the first call left it, in every
    state of the disk. *)
Theorem remove_favorite_twice (movie_id : pyval) (w : world) :
  files (exec (remove_favorite movie_id)
              (exec (remove_favorite movie_id) w))
  = files (exec (remove_favorite movie_id) w).
Proof.
  unfold exec at 2 3. rewrite (remove_favorite_run movie_id w).
  destruct (on_disk w) as [[v|t]|] eqn:E.
  - destruct (rbind (py_iter v) _) as [kept|] eqn:Hk; cbn [snd].
    + unfold exec. rewrite remove_favorite_run, stored_rewritten_on_disk.
      cbn [py_iter rbind].
      rewrite py_filter_all_true.
      2:{ destruct (py_iter v); [|discriminate].
          by eapply py_filter_kept. }
      cbn [snd]. rewrite !files_rewritten, files_after_load, files_rewritten.
      apply insert_insert_eq.
    + unfold exec. rewrite remove_favorite_run, on_disk_after_load, E, Hk.
      cbn [snd]. apply files_after_load.
  - cbn [snd]. unfold exec.
    rewrite remove_favorite_run, on_disk_after_load, E.
    cbn [snd]. apply files_after_load.
  - cbn [snd]. unfold exec.
    rewrite remove_favorite_run, stored_rewritten_on_disk.
    cbn [py_iter rbind py_filter snd].
    rewrite !files_rewritten, files_after_load, files_rewritten.
    apply insert_insert_eq.
Qed.



Lemma confined_after_load w : confined_to_favorites w (after_load w).
Proof.
  unfold confined_to_favorites, after_load.
  destruct (on_disk w).
  - repeat split; try reflexivity. exists [EvRead FAVORITES_FILE].
    split; [reflexivity|]. repeat constructor. discriminate.
  - repeat split; try reflexivity. exists [].
    split; [by rewrite app_nil_r | constructor].
Qed.

Lemma confined_rewritten v w w' :
  confined_to_favorites w w' -> confined_to_favorites w (rewritten v w').
Proof.
  intros (Hf & Hr & Hk & evs & Ht & Hev). unfold confined_to_favorites.
  split; [|split; [|split]]; try assumption.
  - intros path Hne. rewrite files_rewritten, lookup_insert_ne by done.
    by apply Hf.
  - exists (evs ++ [EvWrite FAVORITES_FILE v]). split.
    + unfold rewritten, log, set_file. cbn [trace]. by rewrite Ht, app_assoc.
    + apply Forall_app. split; [exact Hev|]. repeat constructor. discriminate.
Qed.

(** X7. The store works on [favorites.json] alone: whatever
    [add_favorite], [remove_favorite] and [is_favorite] do and however
    they end, every other file is as it was and no request has been sent
    to the catalog. *)
Theorem store_touches_only_its_file (movie movie_id : pyval) (w : world) :
  confined_to_favorites w (exec (add_favorite movie) w) /\
  confined_to_favorites w (exec (remove_favorite movie_id) w) /\
  confined_to_favorites w (exec (is_favorite movie_id) w).
Proof.
  split; [|split].
  - destruct (add_favorite_effect movie w) as [->|[_ [v ->]]];
      auto using confined_after_load, confined_rewritten.
  - destruct (remove_favorite_effect movie_id w) as [->|[_ [v ->]]];
      auto using confined_after_load, confined_rewritten.
  - rewrite is_favorite_effect. apply confined_after_load.
Qed.

(** X8. A favorites file that is not JSON stops the store: on it
    [add_favorite], [remove_favorite] and [is_favorite] all raise the JSON
    decode error after reading the file, and leave it as it is. *)
Theorem malformed_file_blocks_the_store
    (movie movie_id : pyval) (w : world) (text : list N) :
  on_disk w = Some (Malformed text) ->
  add_favorite movie w
  = (Raise JSONDecodeError, log (EvRead FAVORITES_FILE) w) /\
  remove_favorite movie_id w
  = (Raise JSONDecodeError, log (EvRead FAVORITES_FILE) w) /\
  is_favorite movie_id w
  = (Raise JSONDecodeError, log (EvRead FAVORITES_FILE) w).
Proof.
  intros E.
  rewrite add_favorite_run, remove_favorite_run, is_favorite_run.
  unfold after_load. rewrite E. auto.
Qed.

Lemma malformed_file_blocks_the_store_witness :
  outcome (remove_favorite (PyInt 348))
    (World {[ FAVORITES_FILE := Malformed (lit "[{") ]} no_remote []
           PyNone 4300)
  = Raise JSONDecodeError.
Proof.
  exact (f_equal fst
           (proj1 (proj2 (malformed_file_blocks_the_store PyNone (PyInt 348)
              (World {[ FAVORITES_FILE := Malformed (lit "[{") ]} no_remote []
                     PyNone 4300) (lit "[{") eq_refl)))).
Defined.





(** X11. A movie without an id cannot be added: on a stored array of
    records [add_favorite] raises [KeyError] for the key "id" and writes
    nothing. *)
Theorem add_favorite_without_id
    (d : list (list N * pyval)) (w : world) (favs : list pyval) :
  assoc (lit "id") d = None ->
  stored w = Some favs ->
  Forall has_an_id favs ->
  outcome (add_favorite (PyDict d)) w = Raise (KeyError (lit "id")) /\
  files (exec (add_favorite (PyDict d)) w) = files w.
Proof.
  intros Hid Hs Hall. unfold outcome, exec.
  rewrite (add_favorite_on_array _ _ _ Hs).
  assert (Hrec : favorite_record (PyDict d) = Raise (KeyError (lit "id"))).
  { unfold favorite_record. cbn [getitem]. by rewrite Hid. }
  destruct Hall as [|f favs [fid Hf] Hall].
  - cbn [py_any]. rewrite Hrec. cbn [fst snd].
    split; [reflexivity|apply files_after_load].
  - assert (Hsame : same_id_as_movie (PyDict d) f
                    = Raise (KeyError (lit "id"))).
    { unfold same_id_as_movie. rewrite Hf. cbn [rbind getitem].
      by rewrite Hid. }
    cbn [py_any]. rewrite Hsame. cbn [fst snd].
    split; [reflexivity|apply files_after_load].
Qed.

Lemma add_favorite_without_id_witness :
  outcome (add_favorite (PyDict [ (lit "title", PyStr (lit "Untitled")) ]))
          (world_with [alien_record])
  = Raise (KeyError (lit "id")).
Proof.
  assert (Hids : Forall has_an_id [alien_record]).
  { repeat constructor; eexists; reflexivity. }
  exact (proj1 (add_favorite_without_id
                  [ (lit "title", PyStr (lit "Untitled")) ]
                  (world_with [alien_record]) [alien_record]
                  eq_refl eq_refl Hids)).
Defined.

(** * Further properties of the catalog client *)

Lemma status_check st :
  (400 <=? st) && (st <? 600) = true <-> 400 <= st < 600.
Proof. rewrite andb_true_iff, Z.leb_le, Z.ltb_lt. reflexivity. Qed.

Lemma status_ok st : ok_status st -> (400 <=? st) && (st <? 600) = false.
Proof.
  intros Hok. destruct ((400 <=? st) && (st <? 600)) eqn:E; [|reflexivity].
  by apply status_check in E.
Qed.

(** X12. The ways [discover_movies] fails, besides the 4xx and 5xx
    statuses: no response raises the connection error; an answer that is
    not JSON raises the JSON decode error; a JSON object without
    "results" raises [KeyError] for that key; a JSON answer that is not an
    object raises [TypeError].  None of them touches a file. *)
Theorem discover_movies_failures
    (genre_id min_rating year page : pyval) (w : world) :
  let req := Get (BASE_URL ++ lit "/discover/movie")
                 (discover_params (API_KEY w) genre_id min_rating year page) in
  let call := discover_movies genre_id min_rating year page in
  (remote w (trace w) req = NoResponse ->
   outcome call w = Raise ConnectionError) /\
  (forall st, remote w (trace w) req = Response st None -> ok_status st ->
   outcome call w = Raise JSONDecodeError) /\
  (forall st d, remote w (trace w) req = Response st (Some (PyDict d)) ->
   ok_status st -> assoc (lit "results") d = None ->
   outcome call w = Raise (KeyError (lit "results"))) /\
  (forall st body, remote w (trace w) req = Response st (Some body) ->
   ok_status st -> (forall d, body <> PyDict d) ->
   outcome call w = Raise TypeError) /\
  files (exec call w) = files w.
Proof.
  intros req call. unfold call, outcome, exec. rewrite discover_movies_run.
  fold req. cbn zeta. repeat split.
  - by intros ->.
  - intros st -> Hok. by rewrite (status_ok _ Hok).
  - intros st d -> Hok Hd. rewrite (status_ok _ Hok). cbn [fst getitem].
    by rewrite Hd.
  - intros st body -> Hok Hbody. rewrite (status_ok _ Hok). cbn [fst].
    destruct body; try reflexivity. by destruct (Hbody kv).
  - destruct (remote w (trace w) req) as [|st body]; [reflexivity|].
    destruct ((400 <=? st) && (st <? 600)); [reflexivity|].
    destruct body; reflexivity.
Qed.

Lemma discover_movies_failures_witness :
  outcome (discover_movies (PyInt 28) (PyFloat 8) PyNone (PyInt 1)) empty_world
  = Raise ConnectionError.
Proof.
  exact (proj1 (discover_movies_failures (PyInt 28) (PyFloat 8) PyNone
                  (PyInt 1) empty_world) eq_refl).
Defined.

Lemma get_genres_run w :
  get_genres w =
  let req := Get (BASE_URL ++ lit "/genre/movie/list")
                 [ (lit "api_key", API_KEY w);
                   (lit "language", PyStr (lit "ja")) ] in
  let w' := log (EvGet req) w in
  match remote w (trace w) req with
  | NoResponse => (Raise ConnectionError, w')
  | Response st body =>
      if (400 <=? st) && (st <? 600) then (Raise (HTTPError st), w')
      else match body with
           | Some b => (getitem b (lit "genres"), w')
           | None => (Raise JSONDecodeError, w')
           end
  end.
Proof.
  unfold get_genres, requests_get, raise_for_status, response_json.
  unfold bind, gets, lift, ret, raise. cbn zeta.
  destruct (remote w _ _) as [|st body]; [reflexivity|]. cbn [fst snd].
  destruct ((400 <=? st) && (st <? 600)); [reflexivity|].
  destruct body; reflexivity.
Qed.

(** X13. [get_genres] issues exactly one GET request, to the genre list,
    with the API key and the locale and nothing else, and changes nothing
    besides.  It returns the "genres" of a JSON answer whose status is
    outside 400-599, raises the HTTP error on a status inside, and the
    connection error without a response. *)
Theorem get_genres_issues_one_request (w : world) :
  let req := Get (lit "https://api.themoviedb.org/3/genre/movie/list")
                 [ (lit "api_key", API_KEY w);
                   (lit "language", PyStr (lit "ja")) ] in
  exec get_genres w = log (EvGet req) w /\
  (forall st body genres,
     remote w (trace w) req = Response st (Some body) -> ok_status st ->
     getitem body (lit "genres") = Ok genres ->
     outcome get_genres w = Ok genres) /\
  (forall st body,
     remote w (trace w) req = Response st body -> 400 <= st < 600 ->
     outcome get_genres w = Raise (HTTPError st)) /\
  (remote w (trace w) req = NoResponse ->
   outcome get_genres w = Raise ConnectionError).
Proof.
  intros req. unfold outcome, exec. rewrite get_genres_run.
  replace (BASE_URL ++ lit "/genre/movie/list")
    with (lit "https://api.themoviedb.org/3/genre/movie/list")
    by (vm_compute; reflexivity).
  fold req. cbn zeta. repeat split.
  - destruct (remote w (trace w) req) as [|st body]; [reflexivity|].
    destruct ((400 <=? st) && (st <? 600)); [reflexivity|].
    destruct body; reflexivity.
  - intros st body genres -> Hok Hg. by rewrite (status_ok _ Hok).
  - intros st body -> Hst. by rewrite (proj2 (status_check st) Hst).
  - by intros ->.
Qed.

Lemma get_genres_issues_one_request_witness :
  outcome get_genres empty_world = Raise ConnectionError.
Proof.
  exact (proj2 (proj2 (proj2 (get_genres_issues_one_request empty_world)))
           eq_refl).
Defined.

Lemma get_cast_run format_value movie_id w :
  get_cast format_value movie_id w =
  let req := Get (BASE_URL ++ lit "/movie/" ++ format_value movie_id
                  ++ lit "/credits")
                 [ (lit "api_key", API_KEY w);
                   (lit "language", PyStr (lit "ja")) ] in
  let w' := log (EvGet req) w in
  match remote w (trace w) req with
  | NoResponse => (Raise ConnectionError, w')
  | Response st body =>
      if (400 <=? st) && (st <? 600) then (Raise (HTTPError st), w')
      else match body with
           | Some b =>
               (rbind (dict_get b (lit "cast") (PyList [])) (py_slice_to 5),
                w')
           | None => (Raise JSONDecodeError, w')
           end
  end.
Proof.
  unfold get_cast, requests_get, raise_for_status, response_json.
  unfold bind, gets, lift, ret, raise. cbn zeta.
  destruct (remote w _ _) as [|st body]; [reflexivity|]. cbn [fst snd].
  destruct ((400 <=? st) && (st <? 600)); [reflexivity|].
  destruct body as [b|]; [|reflexivity].
  destruct (dict_get b (lit "cast") (PyList [])); reflexivity.
Qed.

(** X14. [get_cast] issues exactly one GET request, to the credits of the
    movie, and changes nothing besides.  From a JSON object answered with
    a status outside 400-599 it returns the first five entries of the
    "cast" list, in order (all of them when there are fewer), and the
    empty list when the object has no "cast".  A list it returns never
    has more than five entries. *)
Theorem get_cast_returns_the_first_five
    (format_value : pyval -> list N) (movie_id : pyval) (w : world) :
  let req := Get (BASE_URL ++ lit "/movie/" ++ format_value movie_id
                  ++ lit "/credits")
                 [ (lit "api_key", API_KEY w);
                   (lit "language", PyStr (lit "ja")) ] in
  let call := get_cast format_value movie_id in
  exec call w = log (EvGet req) w /\
  (forall st d cast,
     remote w (trace w) req = Response st (Some (PyDict d)) -> ok_status st ->
     assoc (lit "cast") d = Some (PyList cast) ->
     outcome call w = Ok (PyList (take 5 cast))) /\
  (forall st d,
     remote w (trace w) req = Response st (Some (PyDict d)) -> ok_status st ->
     assoc (lit "cast") d = None ->
     outcome call w = Ok (PyList [])) /\
  (forall shown, outcome call w = Ok (PyList shown) ->
                 (length shown <= 5)%nat).
Proof.
  intros req call. unfold call, outcome, exec. rewrite get_cast_run.
  fold req. cbn zeta. repeat split.
  - destruct (remote w (trace w) req) as [|st body]; [reflexivity|].
    destruct ((400 <=? st) && (st <? 600)); [reflexivity|].
    destruct body; reflexivity.
  - intros st d cast -> Hok Hc. rewrite (status_ok _ Hok).
    cbn [fst dict_get]. by rewrite Hc.
  - intros st d -> Hok Hc. rewrite (status_ok _ Hok).
    cbn [fst dict_get]. by rewrite Hc.
  - intros shown.
    destruct (remote w (trace w) req) as [|st body]; [discriminate|].
    destruct ((400 <=? st) && (st <? 600)); [discriminate|].
    destruct body as [b|]; [|discriminate]. cbn [fst].
    destruct (dict_get b (lit "cast") (PyList [])) as [cast|];
      cbn [rbind]; [|discriminate].
    destruct cast; cbn [py_slice_to]; try discriminate.
    intros [= <-]. rewrite length_take. lia.
Qed.

Lemma get_cast_returns_the_first_five_witness :
  ok_status 200 /\
  outcome (get_cast decimal_text (PyInt 550)) credits_world
  = Ok (PyList (take 5 seven_actors)).
Proof.
  assert (Hok : ok_status 200) by (unfold ok_status; lia).
  split; [exact Hok|].
  exact (proj1 (proj2 (get_cast_returns_the_first_five decimal_text
                         (PyInt 550) credits_world))
           200 _ seven_actors eq_refl Hok eq_refl).
Defined.

Example get_cast_url :
  trace (exec (get_cast decimal_text (PyInt 550)) credits_world)
  = [ EvGet (Get (lit "https://api.themoviedb.org/3/movie/550/credits")
                 [ (lit "api_key", PyStr (lit "k"));
                   (lit "language", PyStr (lit "ja")) ]) ].
Proof. vm_compute. reflexivity. Qed.

(** * Further properties of the search session *)

Lemma load_more_handler_run w p movies g r y :
  load_more_handler (AppState w (Session p movies (Some g) (Some r) (Some y))) =
  match discover_movies g r y (PyInt (p + 1)) w with
  | (Ok more, w') =>
      match list_iadd movies more with
      | Ok extended =>
          (Ok tt, AppState w' (Session (p + 1) extended (Some g) (Some r) (Some y)))
      | Raise e =>
          (Raise e, AppState w' (Session (p + 1) movies (Some g) (Some r) (Some y)))
      end
  | (Raise e, w') =>
      (Raise e, AppState w' (Session (p + 1) movies (Some g) (Some r) (Some y)))
  end.
Proof.
  run_session.
  destruct (discover_movies g r y (PyInt (p + 1)) w) as [[more|e] w'];
    run_session; [|reflexivity].
  destruct (list_iadd movies more); reflexivity.
Qed.

Lemma search_handler_run genre_map name min_rating year a :
  search_handler genre_map name min_rating year a =
  let reset := AppState (app_world a) (set_page 1 (app_session a)) in
  match getitem genre_map name with
  | Raise e => (Raise e, reset)
  | Ok genre_id =>
      match year_value (int_max_str_digits (app_world a)) year with
      | Raise e => (Raise e, reset)
      | Ok yv =>
          match discover_movies genre_id min_rating yv (PyInt 1) (app_world a) with
          | (Raise e, w') => (Raise e, AppState w' (set_page 1 (app_session a)))
          | (Ok found, w') =>
              (Ok tt,
               AppState w'
                 (Session 1 found (Some genre_id) (Some min_rating) (Some yv)))
          end
      end
  end.
Proof.
  destruct a as [w s]. run_session. cbn zeta.
  destruct (getitem genre_map name) as [genre_id|]; [|reflexivity].
  run_session.
  destruct (year_value (int_max_str_digits w) year) as [yv|]; [|reflexivity].
  run_session.
  destruct (discover_movies genre_id min_rating yv (PyInt 1) w) as [[found|e] w'];
    run_session; reflexivity.
Qed.

(** X15. When the catalog call of "load more" raises, the handler raises
    the same exception and the list shown is kept, but the page number
    has already been incremented: the page that failed is not asked for
    again. *)
Theorem load_more_failure_still_advances_the_page
    (w w' : world) (p : Z) (movies g r y : pyval) (e : exn) :
  discover_movies g r y (PyInt (p + 1)) w = (Raise e, w') ->
  load_more_handler (AppState w (Session p movies (Some g) (Some r) (Some y)))
  = (Raise e,
     AppState w' (Session (p + 1) movies (Some g) (Some r) (Some y))).
Proof. intros Hcall. rewrite load_more_handler_run, Hcall. reflexivity. Qed.

Lemma load_more_failure_still_advances_the_page_witness :
  load_more_handler (AppState empty_world searched_session)
  = (Raise ConnectionError,
     AppState
       (exec (discover_movies (PyInt 28) (PyFloat 8) (PyInt 2023) (PyInt 2))
             empty_world)
       (Session 2 (PyList [fight_club]) (Some (PyInt 28)) (Some (PyFloat 8))
                (Some (PyInt 2023)))).
Proof.
  exact (load_more_failure_still_advances_the_page empty_world _ 1
           (PyList [fight_club]) (PyInt 28) (PyFloat 8) (PyInt 2023)
           ConnectionError eq_refl).
Defined.

(** X16. A search that raises has already reset the page number to 1,
    and has left the list shown and the stored filters of the previous
    search as they were.  When it is the year field that raises, no
    request has been sent. *)
Theorem failed_search_resets_only_the_page
    (genre_map : pyval) (name : list N) (min_rating : pyval) (year : list N)
    (a : app_state) (e : exn) :
  (outcome (search_handler genre_map name min_rating year) a = Raise e ->
   app_session (exec (search_handler genre_map name min_rating year) a)
   = set_page 1 (app_session a)) /\
  (forall genre_id,
     getitem genre_map name = Ok genre_id ->
     year_value (int_max_str_digits (app_world a)) year = Raise e ->
     search_handler genre_map name min_rating year a
     = (Raise e, AppState (app_world a) (set_page 1 (app_session a)))).
Proof.
  unfold outcome, exec. rewrite search_handler_run. cbn zeta. split.
  - destruct (getitem genre_map name) as [genre_id|]; [|reflexivity].
    destruct (year_value _ year) as [yv|]; [|reflexivity].
    destruct (discover_movies _ _ _ _ _) as [[found|e'] w'];
      [discriminate|reflexivity].
  - intros genre_id -> ->. reflexivity.
Qed.

Lemma failed_search_resets_only_the_page_witness :
  search_handler (PyDict [ (lit "Action", PyInt 28) ]) (lit "Action")
    (PyFloat 8) [0xb2%N]
    (AppState online_world
       (Session 3 (PyList [fight_club]) (Some (PyInt 18)) (Some (PyFloat 7))
                (Some PyNone)))
  = (Raise ValueError,
     AppState online_world
       (Session 1 (PyList [fight_club]) (Some (PyInt 18)) (Some (PyFloat 7))
                (Some PyNone))).
Proof.
  exact (proj2 (failed_search_resets_only_the_page
                  (PyDict [ (lit "Action", PyInt 28) ]) (lit "Action")
                  (PyFloat 8) [0xb2%N]
                  (AppState online_world
                     (Session 3 (PyList [fight_club]) (Some (PyInt 18))
                              (Some (PyFloat 7)) (Some PyNone)))
                  ValueError)
           (PyInt 28) eq_refl eq_refl).
Defined.

(** X17. "Load more" continues the last search: after a search that
    returned, the handler sends the request of that search (its genre,
    its minimum rating, its year) for page 2, whatever the sidebar shows
    by then and however the handler ends. *)
Theorem load_more_continues_the_last_search
    (genre_map : pyval) (name : list N) (min_rating : pyval) (year : list N)
    (a : app_state) (genre_id yv found : pyval) (w1 : world) :
  getitem genre_map name = Ok genre_id ->
  year_value (int_max_str_digits (app_world a)) year = Ok yv ->
  discover_movies genre_id min_rating yv (PyInt 1) (app_world a)
  = (Ok found, w1) ->
  app_world (exec load_more_handler
               (exec (search_handler genre_map name min_rating year) a))
  = exec (discover_movies genre_id min_rating yv (PyInt 2)) w1.
Proof.
  intros Hg Hy Hcall. unfold exec at 2.
  rewrite search_handler_run, Hg, Hy, Hcall. cbn zeta. cbn [snd].
  unfold exec. rewrite load_more_handler_run.
  change (1 + 1) with 2.
  destruct (discover_movies genre_id min_rating yv (PyInt 2) w1)
    as [[more|e] w2]; cbn [snd]; [|reflexivity].
  destruct (list_iadd found more); reflexivity.
Qed.

Lemma load_more_continues_the_last_search_witness :
  trace (app_world
           (exec load_more_handler
              (exec (search_handler (PyDict [ (lit "Action", PyInt 28) ])
                       (lit "Action") (PyFloat 8) (lit "2023"))
                    (AppState online_world initial_session))))
  = trace (exec (discover_movies (PyInt 28) (PyFloat 8) (PyInt 2023) (PyInt 2))
             (exec (discover_movies (PyInt 28) (PyFloat 8) (PyInt 2023)
                      (PyInt 1)) online_world)).
Proof.
  exact (f_equal trace
           (load_more_continues_the_last_search
              (PyDict [ (lit "Action", PyInt 28) ]) (lit "Action") (PyFloat 8)
              (lit "2023") (AppState online_world initial_session)
              (PyInt 28) (PyInt 2023) (PyList [fight_club]) _
              eq_refl eq_refl eq_refl)).
Defined.

Lemma trace_discover_movies g r y p w :
  trace (exec (discover_movies g r y p) w)
  = trace w ++ [EvGet (Get (BASE_URL ++ lit "/discover/movie")
                           (discover_params (API_KEY w) g r y p))].
Proof. rewrite discover_movies_exec, <- discover_url. reflexivity. Qed.

Lemma api_key_discover_movies g r y p w :
  API_KEY (exec (discover_movies g r y p) w) = API_KEY w.
Proof. rewrite discover_movies_exec. reflexivity. Qed.

(** X18. Pressing "load more" [k] times, each press returning: the page
    number has grown by [k], the list shown at the start is still the
    beginning of the list, and the requests sent are those of the stored
    filters for the next [k] pages, in order and without a gap. *)
Theorem press_load_more_pages
    (k : nat) (w : world) (p : Z) (L : list pyval) (g r y : pyval) :
  let a := AppState w (Session p (PyList L) (Some g) (Some r) (Some y)) in
  outcome (press_load_more k) a = Ok tt ->
  ss_page (app_session (exec (press_load_more k) a)) = p + Z.of_nat k /\
  (exists xs,
     ss_movies (app_session (exec (press_load_more k) a)) = PyList (L ++ xs)) /\
  trace (app_world (exec (press_load_more k) a))
  = trace w ++ page_requests (API_KEY w) g r y p k.
Proof.
  cbn zeta. revert w p L.
  induction k as [|k IH]; intros w p L.
  - intros _. unfold exec. cbn [press_load_more ret snd app_session app_world
      ss_page ss_movies page_requests].
    split; [lia|]. split; [exists []; by rewrite app_nil_r|].
    by rewrite app_nil_r.
  - unfold outcome, exec. cbn [press_load_more]. unfold bind.
    rewrite load_more_handler_run.
    pose proof (trace_discover_movies g r y (PyInt (p + 1)) w) as Htr.
    pose proof (api_key_discover_movies g r y (PyInt (p + 1)) w) as Hkey.
    unfold exec in Htr, Hkey.
    destruct (discover_movies g r y (PyInt (p + 1)) w) as [[more|e] w'];
      [|discriminate].
    cbn [snd] in Htr, Hkey. cbn [list_iadd].
    destruct (py_iter more) as [xs|]; cbn [rbind]; [|discriminate].
    intros Hok. destruct (IH w' (p + 1) (L ++ xs) Hok) as (Hp & [ys Hm] & Ht).
    unfold exec in Hp, Hm, Ht. split; [|split].
    + rewrite Hp. lia.
    + exists (xs ++ ys). rewrite Hm. by rewrite app_assoc.
    + rewrite Ht, Htr, Hkey. cbn [page_requests].
      by rewrite <- app_assoc.
Qed.

Lemma press_load_more_pages_witness :
  ss_page (app_session
             (exec (press_load_more 2)
                   (AppState online_world searched_session)))
  = 3.
Proof.
  exact (proj1 (press_load_more_pages 2 online_world 1 [fight_club]
                  (PyInt 28) (PyFloat 8) (PyInt 2023) eq_refl)).
Defined.

(** * Further properties of the cards and of the favorites rows *)

(** X19. The year shown for a movie: "不明" when the movie has no
    release date or an empty one, the first four characters of the date
    otherwise (the whole date when it is shorter).  A release date that
    is [None] makes lines 102 and 215 raise [TypeError].  A year text
    that is a string always has one to four characters. *)
Theorem year_str_cases (d : list (list N * pyval)) :
  (assoc (lit "release_date") d = None ->
   year_str (PyDict d) = Ok (PyStr UNKNOWN)) /\
  (assoc (lit "release_date") d = Some (PyStr []) ->
   year_str (PyDict d) = Ok (PyStr UNKNOWN)) /\
  (forall c s, assoc (lit "release_date") d = Some (PyStr (c :: s)) ->
   year_str (PyDict d) = Ok (PyStr (take 4 (c :: s)))) /\
  (assoc (lit "release_date") d = Some PyNone ->
   year_str (PyDict d) = Raise TypeError) /\
  (forall text, year_str (PyDict d) = Ok (PyStr text) ->
   (1 <= length text <= 4)%nat).
Proof.
  unfold year_str. cbn [dict_get]. split; [|split; [|split; [|split]]].
  - by intros ->.
  - by intros ->.
  - intros c s ->. reflexivity.
  - by intros ->.
  - intros text.
    destruct (assoc (lit "release_date") d) as [v|]; cbn [rbind];
      [|intros [= <-]; cbn; lia].
    destruct v; cbn [py_slice_to rbind]; try discriminate;
      unfold py_or; cbn [truthy].
    + case_bool_decide as E; cbn [negb]; intros [= <-]; [cbn; lia|].
      rewrite length_take. destruct s; [done|]. cbn [length]. lia.
    + case_bool_decide as E; cbn [negb]; [|discriminate].
      intros [= <-]. cbn. lia.
Qed.

Lemma year_str_cases_witness :
  year_str fight_club = Ok (PyStr (lit "1999")) /\
  year_str bare_movie = Ok (PyStr UNKNOWN) /\
  year_str (PyDict [ (lit "id", PyInt 7); (lit "release_date", PyNone) ])
  = Raise TypeError.
Proof.
  split; [|split].
  - exact (proj1 (proj2 (proj2 (year_str_cases
             [ (lit "id", PyInt 550);
               (lit "title", PyStr (lit "Fight Club"));
               (lit "release_date", PyStr (lit "1999-10-15"));
               (lit "vote_average", PyFloat 8.5);
               (lit "overview", PyStr (lit "An insomniac office worker."));
               (lit "poster_path", PyStr (lit "/fc.jpg")) ])))
             _ _ eq_refl).
  - exact (proj1 (year_str_cases [ (lit "id", PyInt 7) ]) eq_refl).
  - exact (proj1 (proj2 (proj2 (proj2 (year_str_cases
             [ (lit "id", PyInt 7); (lit "release_date", PyNone) ]))))
             eq_refl).
Defined.

Lemma length_synopsis s : (length (synopsis s) <= 123)%nat.
Proof.
  unfold synopsis. case_bool_decide as H.
  - rewrite length_app, length_take. change (length (lit "...")) with 3%nat.
    lia.
  - lia.
Qed.

Lemma synopsis_not_empty s : s <> [] -> synopsis s <> [].
Proof.
  unfold synopsis. intros Hs. case_bool_decide as H; [|exact Hs].
  destruct s as [|c s]; [done|]. discriminate.
Qed.

(** X20. The synopsis of a card whose movie has a string for an overview,
    [None], or no overview at all, is a string of 1 to 123 characters:
    lines 104 and 112 never raise on such a movie and never show an empty
    synopsis. *)
Theorem card_synopsis_is_bounded (d : list (list N * pyval)) :
  (assoc (lit "overview") d = None \/
   assoc (lit "overview") d = Some PyNone \/
   exists s, assoc (lit "overview") d = Some (PyStr s)) ->
  exists text,
    rbind (card_overview (PyDict d)) card_synopsis = Ok (PyStr text) /\
    (1 <= length text <= 123)%nat.
Proof.
  assert (Hlen : forall t : list N, t <> [] ->
            (1 <= length (synopsis t) <= 123)%nat).
  { intros t Ht. split; [|apply length_synopsis].
    pose proof (synopsis_not_empty t Ht). destruct (synopsis t); [done|].
    cbn [length]. lia. }
  unfold card_overview. cbn [dict_get].
  intros [-> | [-> | [s ->]]]; cbn [rbind truthy card_synopsis].
  - eexists. split; [reflexivity|]. by apply Hlen.
  - eexists. split; [reflexivity|]. by apply Hlen.
  - case_bool_decide as Hs; cbn [negb card_synopsis].
    + eexists. split; [reflexivity|]. by apply Hlen.
    + eexists. split; [reflexivity|]. by apply Hlen.
Qed.

Lemma card_synopsis_is_bounded_witness :
  exists text,
    rbind (card_overview bare_movie) card_synopsis = Ok (PyStr text) /\
    (1 <= length text <= 123)%nat.
Proof.
  exact (card_synopsis_is_bounded [ (lit "id", PyInt 7) ] (or_introl eq_refl)).
Defined.




(** X22. What the search tab could show, the favorites tab can show.
    When lines 100-108 run through for a movie, the record
    [add_favorite] builds from it gives a favorites row without raising:
    the same poster, the same year text and the same id.  The title and
    the rating of the row are the record's own, [None] when the movie had
    none: the row's "N/A" is never used for such a record, and the card's
    "タイトル不明" is not carried over. *)
Theorem favorites_row_of_a_shown_card (movie : pyval) (c : card) :
  card_header movie = Ok c ->
  exists record title vote,
    favorite_record movie = Ok record /\
    dict_get movie (lit "title") PyNone = Ok title /\
    dict_get movie (lit "vote_average") PyNone = Ok vote /\
    favorite_row record
    = Ok (Row (cd_poster c) (cd_year_str c) title vote (cd_movie_id c)).
Proof.
  unfold card_header.
  destruct (getitem movie (lit "id")) as [mid|] eqn:Hid; [|discriminate].
  cbn [rbind]. destruct (getitem_is_dict _ _ _ Hid) as (d & -> & Hd).
  cbn [dict_get]. 
  destruct (assoc (lit "title") d) as [t|] eqn:Ht; cbn [rbind];
  (destruct (year_str (PyDict d)) as [y|] eqn:Hy; cbn [rbind]; [|discriminate]);
  (destruct (assoc (lit "vote_average") d) as [v|] eqn:Hv; cbn [rbind]);
  (destruct (card_overview (PyDict d)) as [o|]; cbn [rbind]; [|discriminate]);
  (destruct (assoc (lit "poster_path") d) as [p|] eqn:Hp; cbn [rbind]);
  (destruct (poster_url _) as [u|] eqn:Hu; cbn [rbind]; [|discriminate]);
  intros [= <-]; cbn [cd_poster cd_year_str cd_movie_id];
  unfold favorite_record; rewrite Hid; cbn [rbind dict_get];
  rewrite ?Ht, ?Hv, ?Hp; cbn [rbind];
  revert Hy; unfold year_str; cbn [dict_get];
  (destruct (assoc (lit "release_date") d) as [rd|]; cbn [rbind]; intros Hy);
  (do 3 eexists; split; [reflexivity|]; split; [reflexivity|];
   split; [reflexivity|]);
  unfold favorite_row, year_str; cbn [dict_get getitem]; lookup_field;
  cbn [rbind]; rewrite ?Hu; cbn [rbind];
  (destruct (py_slice_to 4 _) as [yy|]; cbn [rbind] in *; [|discriminate]);
  injection Hy as <-; reflexivity.
Qed.

Lemma favorites_row_of_a_shown_card_witness :
  favorite_row fight_club_record
  = Ok (Row (Some (lit "https://image.tmdb.org/t/p/w300/fc.jpg"))
            (PyStr (lit "1999")) (PyStr (lit "Fight Club")) (PyFloat 8.5)
            (PyInt 550)).
Proof.
  destruct (favorites_row_of_a_shown_card fight_club _ eq_refl)
    as (record & title & vote & Hrec & Ht & Hv & Hrow).
  injection Hrec as <-. injection Ht as <-. injection Hv as <-.
  exact Hrow.
Defined.

(** *** The two columns *)

Lemma parity_succ i : (S i mod 2 =? 0)%nat = negb (i mod 2 =? 0)%nat.
Proof.
  pose proof (Nat.mod_upper_bound i 2 ltac:(lia)).
  pose proof (Nat.mod_upper_bound (S i) 2 ltac:(lia)).
  pose proof (Nat.div_mod_eq i 2). pose proof (Nat.div_mod_eq (S i) 2).
  destruct (Nat.eqb_spec (S i mod 2) 0), (Nat.eqb_spec (i mod 2) 0);
    cbn [negb]; try reflexivity; lia.
Qed.

Lemma place_in_columns_alternate {A : Type} (cards : list A) i l r :
  place_in_columns i cards (l, r)
  = (l ++ alternate (i mod 2 =? 0)%nat cards,
     r ++ alternate (negb (i mod 2 =? 0)%nat) cards).
Proof.
  revert i l r. induction cards as [|c cards IH]; intros i l r.
  - cbn [place_in_columns alternate]. by rewrite !app_nil_r.
  - cbn [place_in_columns alternate fst snd]. rewrite <- parity_succ.
    destruct (i mod 2 =? 0)%nat eqn:E; rewrite IH, parity_succ, E;
      cbn [negb]; by rewrite <- app_assoc.
Qed.

Lemma alternate_lookup {A : Type} (cards : list A) b j :
  alternate b cards !! j = cards !! (2 * j + (if b then 0 else 1))%nat.
Proof.
  revert b j. induction cards as [|x cards IH]; intros b j.
  - cbn [alternate]. by rewrite !lookup_nil.
  - destruct b; cbn [alternate].
    + destruct j as [|j]; [reflexivity|].
      cbn [lookup list_lookup]. rewrite IH.
      replace (2 * S j + 0)%nat with (S (2 * j + 1)) by lia. reflexivity.
    + rewrite IH. replace (2 * j + 1)%nat with (S (2 * j + 0)) by lia.
      reflexivity.
Qed.

Lemma alternate_lengths {A : Type} (cards : list A) :
  (length (alternate true cards) + length (alternate false cards)
   = length cards /\
   length (alternate false cards) <= length (alternate true cards)
   <= length (alternate false cards) + 1)%nat.
Proof.
  induction cards as [|x cards IH]; cbn [alternate length]; lia.
Qed.

(** X23. The two-column grid reads left to right, top to bottom: card
    number [i] of the list is card number [i / 2] of column [i % 2].
    Every card is in exactly one column, and the left column has as many
    cards as the right one or one more. *)
Theorem two_columns_layout {A : Type} (cards : list A) :
  (forall i c, cards !! i = Some c ->
     (if (i mod 2 =? 0)%nat
      then fst (two_columns cards)
      else snd (two_columns cards)) !! (i / 2)%nat = Some c) /\
  (length (fst (two_columns cards)) + length (snd (two_columns cards))
   = length cards)%nat /\
  (length (snd (two_columns cards)) <= length (fst (two_columns cards))
   <= length (snd (two_columns cards)) + 1)%nat.
Proof.
  unfold two_columns. rewrite place_in_columns_alternate.
  change (0 mod 2 =? 0)%nat with true. cbn [fst snd negb app].
  split; [|apply alternate_lengths].
  intros i c Hc. pose proof (Nat.div_mod_eq i 2) as Hdiv.
  pose proof (Nat.mod_upper_bound i 2 ltac:(lia)) as Hlt.
  destruct (Nat.eqb_spec (i mod 2) 0) as [E|E]; rewrite alternate_lookup.
  - replace (2 * (i / 2) + 0)%nat with i by lia. exact Hc.
  - replace (2 * (i / 2) + 1)%nat with i by lia. exact Hc.
Qed.

Lemma two_columns_layout_witness :
  snd (two_columns [alien_record; fight_club_record; bare_movie]) !! 0%nat
  = Some fight_club_record.
Proof.
  exact (proj1 (two_columns_layout
                  [alien_record; fight_club_record; bare_movie])
           1%nat fight_club_record eq_refl).
Defined.

Lemma failed_search_state genre_map name min_rating year a e :
  outcome (search_handler genre_map name min_rating year) a = Raise e ->
  exists w1,
    exec (search_handler genre_map name min_rating year) a
    = AppState w1 (set_page 1 (app_session a)).
Proof.
  unfold outcome, exec. rewrite search_handler_run. cbn zeta.
  destruct (getitem genre_map name) as [genre_id|]; [|eauto].
  destruct (year_value _ year) as [yv|]; [|eauto].
  destruct (discover_movies _ _ _ _ _) as [[found|e'] w']; [discriminate|eauto].
Qed.

(** X24. After a search that raised, "load more" goes on with the
    previous search: it asks for page 2 of the stored filters, and when
    that call returns a list, appends it to the list shown before the
    search, whatever pages that list already held. *)
Theorem load_more_after_a_failed_search
    (genre_map : pyval) (name : list N) (min_rating : pyval) (year : list N)
    (w : world) (p : Z) (L : list pyval) (g r y : pyval) (e : exn) :
  let a := AppState w (Session p (PyList L) (Some g) (Some r) (Some y)) in
  let a1 := exec (search_handler genre_map name min_rating year) a in
  outcome (search_handler genre_map name min_rating year) a = Raise e ->
  app_world (exec load_more_handler a1)
  = exec (discover_movies g r y (PyInt 2)) (app_world a1) /\
  (forall more w2,
     discover_movies g r y (PyInt 2) (app_world a1) = (Ok (PyList more), w2) ->
     app_session (exec load_more_handler a1)
     = Session 2 (PyList (L ++ more)) (Some g) (Some r) (Some y)).
Proof.
  cbn zeta. intros Hfail.
  destruct (failed_search_state _ _ _ _ _ _ Hfail) as [w1 ->].
  unfold set_page.
  cbn [app_world app_session ss_movies ss_genre_id ss_min_rating
       ss_year_value].
  unfold exec. rewrite load_more_handler_run. change (1 + 1) with 2. split.
  - destruct (discover_movies g r y (PyInt 2) w1) as [[more|e'] w2];
      cbn [snd]; [|reflexivity].
    destruct (list_iadd (PyList L) more); reflexivity.
  - intros more w2 ->. reflexivity.
Qed.

Lemma load_more_after_a_failed_search_witness :
  app_session
    (exec load_more_handler
       (exec (search_handler (PyDict [ (lit "Action", PyInt 28) ])
                (lit "Action") (PyFloat 8) [0xb2%N])
             (AppState online_world
                (Session 3 (PyList [fight_club]) (Some (PyInt 18))
                         (Some (PyFloat 7)) (Some PyNone)))))
  = Session 2 (PyList ([fight_club] ++ [fight_club])) (Some (PyInt 18))
            (Some (PyFloat 7)) (Some PyNone).
Proof.
  exact (proj2 (load_more_after_a_failed_search
                  (PyDict [ (lit "Action", PyInt 28) ]) (lit "Action")
                  (PyFloat 8) [0xb2%N] online_world 3 [fight_club]
                  (PyInt 18) (PyFloat 7) PyNone ValueError eq_refl)
           [fight_club] _ eq_refl).
Defined.
